(** * machinist: the gulpfile's path derivation, pre-flight checks and
      publish pipelines

    A shallow embedding of [gulpfile.js].  JavaScript strings are modelled
    as Rocq strings whose characters are read as the code units 0..255
    (Latin-1); on that range [\s] and [toLowerCase] are written out in
    full.  A thrown [Error] is a value of type [error]; a task returns an
    [outcome] together with the state of the remote bucket. *)

From Stdlib Require Import Ascii String ZArith NArith Bool List.
From Stdlib Require Import Numbers.DecimalString.
From stdpp Require Import gmap strings.

Local Open Scope N_scope.
#[local] Arguments String.append !_ _ / : simpl nomatch.

(** ** JavaScript strings *)

Module JsString.

(** The class [\s] of a JavaScript regular expression, on code units below
    256: TAB, LF, VT, FF, CR, SPACE and NO-BREAK SPACE. *)
Definition is_space (c : ascii) : bool :=
  let n := N_of_ascii c in
  ((9 <=? n) && (n <=? 13)) || (n =? 32) || (n =? 160).

(** [String.prototype.toLowerCase], one code unit: A-Z and the Latin-1 capitals
    U+00C0..U+00DE (U+00D7, the multiplication sign, apart) move up by 32.
    On the code units 0..255 the lower case of a unit is one unit; beyond
    them, outside this model, it can be two. *)
Definition lower_char (c : ascii) : ascii :=
  let n := N_of_ascii c in
  if ((65 <=? n) && (n <=? 90)) ||
     ((192 <=? n) && (n <=? 222) && negb (n =? 215))
  then ascii_of_N (n + 32) else c.

Fixpoint toLowerCase (s : string) : string :=
  match s with
  | EmptyString => EmptyString
  | String c t => String (lower_char c) (toLowerCase t)
  end.

(** The longest match of [\s+] at the head of [s] is consumed by
    [skip_spaces]. *)
Fixpoint skip_spaces (s : string) : string :=
  match s with
  | EmptyString => EmptyString
  | String c t => if is_space c then skip_spaces t else s
  end.

(** [s.replace(/\s+/g, '-')], as a left-to-right scan.  [in_run] tells that
    the character before the head of [s] belonged to a match of [\s+] whose
    hyphen has been written already. *)
Fixpoint replace_spaces_from (in_run : bool) (s : string) : string :=
  match s with
  | EmptyString => EmptyString
  | String c t =>
      if is_space c
      then if in_run then replace_spaces_from true t
           else String "-" (replace_spaces_from true t)
      else String c (replace_spaces_from false t)
  end.

Definition replace_spaces (s : string) : string := replace_spaces_from false s.

(** [String.prototype.trim]: the white space at both ends goes. *)
Fixpoint all_spaces (s : string) : bool :=
  match s with
  | EmptyString => true
  | String c t => is_space c && all_spaces t
  end.

Fixpoint trim_right (s : string) : string :=
  match s with
  | EmptyString => EmptyString
  | String c t => if all_spaces s then EmptyString else String c (trim_right t)
  end.

Definition trim (s : string) : string := trim_right (skip_spaces s).

Fixpoint has_space (s : string) : bool :=
  match s with
  | EmptyString => false
  | String c t => is_space c || has_space t
  end.

Definition starts_with_space (s : string) : bool :=
  match s with
  | EmptyString => false
  | String c _ => is_space c
  end.

Fixpoint ends_with_space (s : string) : bool :=
  match s with
  | EmptyString => false
  | String c EmptyString => is_space c
  | String _ t => ends_with_space t
  end.

(** The state of the scan of [replace_spaces_from] once it has read [a],
    when started in state [f]. *)
Definition state_after (f : bool) (a : string) : bool :=
  match a with
  | EmptyString => f
  | _ => ends_with_space a
  end.

End JsString.

(** ** The path and name deriver (gulpfile.js, lines 36-40) *)

(** [const convertedProjectName =
       configProjectNameProp.replace(/\s+/g, '-').toLowerCase()] *)
Definition convertedProjectName (configProjectNameProp : string) : string :=
  JsString.toLowerCase (JsString.replace_spaces configProjectNameProp).

(** The normalisation as the specification words it: trim, then put one
    hyphen for each run of white space, then lower-case. *)
Definition slug_as_specified (name : string) : string :=
  JsString.toLowerCase (JsString.replace_spaces (JsString.trim name)).

(** ** Regular expressions

    The two patterns of the date validator use character classes,
    sequencing, alternation and a bounded repetition, between [^] and [$].
    Without the [m] flag the anchors are the two ends of the input, so
    [RegExp.prototype.test] on them is a match of the whole input; it is
    decided with Brzozowski derivatives. *)

Module Regex.

Inductive item : Type :=
| One (c : ascii)                (* a character of a class, as in [12] *)
| Range (lo hi : ascii).         (* a range of a class, as in [0-9]   *)

Inductive regex : Type :=
| Void
| Eps
| Class (cs : list item)
| Seq (r1 r2 : regex)
| Alt (r1 r2 : regex).

(** [r{n}] *)
Fixpoint Rep (n : nat) (r : regex) : regex :=
  match n with
  | O => Eps
  | S k => Seq r (Rep k r)
  end.

Definition Chr (c : ascii) : regex := Class [One c].

Definition in_item (c : ascii) (i : item) : bool :=
  match i with
  | One d => N_of_ascii c =? N_of_ascii d
  | Range lo hi => (N_of_ascii lo <=? N_of_ascii c) && (N_of_ascii c <=? N_of_ascii hi)
  end.

Definition in_class (c : ascii) (cs : list item) : bool := existsb (in_item c) cs.

Fixpoint nullable (r : regex) : bool :=
  match r with
  | Void => false
  | Eps => true
  | Class _ => false
  | Seq r1 r2 => nullable r1 && nullable r2
  | Alt r1 r2 => nullable r1 || nullable r2
  end.

Fixpoint deriv (c : ascii) (r : regex) : regex :=
  match r with
  | Void => Void
  | Eps => Void
  | Class cs => if in_class c cs then Eps else Void
  | Seq r1 r2 =>
      if nullable r1
      then Alt (Seq (deriv c r1) r2) (deriv c r2)
      else Seq (deriv c r1) r2
  | Alt r1 r2 => Alt (deriv c r1) (deriv c r2)
  end.

Fixpoint matches (r : regex) (s : string) : bool :=
  match s with
  | EmptyString => nullable r
  | String c t => matches (deriv c r) t
  end.

(** The language of a pattern, to state what [matches] decides. *)
Inductive lang : regex -> string -> Prop :=
| lang_eps : lang Eps EmptyString
| lang_class cs c : in_class c cs = true -> lang (Class cs) (String c EmptyString)
| lang_seq r1 r2 s1 s2 : lang r1 s1 -> lang r2 s2 -> lang (Seq r1 r2) (s1 +:+ s2)
| lang_alt_l r1 r2 s : lang r1 s -> lang (Alt r1 r2) s
| lang_alt_r r1 r2 s : lang r2 s -> lang (Alt r1 r2) s.

End Regex.

(** ** JavaScript values read from [config.yml] *)

Module Js.

(** What [yaml.safeLoad] can put in a field: nothing, [null], a boolean, a
    number (the integers of magnitude below 10^21, which [ToString] prints
    digit by digit, are modelled), a string, or an object (a mapping, a
    sequence, a timestamp), of which only the image under [ToString] is
    observed. *)
Inductive value : Type :=
| Undefined
| Null
| Bool (b : bool)
| Number (z : Z)
| Str (s : string)
| Object (to_string : string).

Inductive type_name : Type :=
| TUndefined | TObject | TBoolean | TNumber | TString.

Definition typeof (v : value) : type_name :=
  match v with
  | Undefined => TUndefined
  | Null => TObject
  | Bool _ => TBoolean
  | Number _ => TNumber
  | Str _ => TString
  | Object _ => TObject
  end.

(** [t1 !== t2] on the results of [typeof] *)
Definition type_neq (t1 t2 : type_name) : bool :=
  match t1, t2 with
  | TUndefined, TUndefined | TObject, TObject | TBoolean, TBoolean
  | TNumber, TNumber | TString, TString => false
  | _, _ => true
  end.

Definition ToString (v : value) : string :=
  match v with
  | Undefined => "undefined"
  | Null => "null"
  | Bool true => "true"
  | Bool false => "false"
  | Number z => NilZero.string_of_int (Z.to_int z)
  | Str s => s
  | Object s => s
  end.

Definition ToBoolean (v : value) : bool :=
  match v with
  | Undefined => false
  | Null => false
  | Bool b => b
  | Number z => negb (Z.eqb z 0)
  | Str EmptyString => false
  | Str _ => true
  | Object _ => true
  end.

(** [re.test(v)]: the argument goes through [ToString]. *)
Definition test (re : Regex.regex) (v : value) : bool :=
  Regex.matches re (ToString v).

End Js.

(** ** Errors and results *)

(** The three [throw new Error(...)] of the file, named after their
    messages:
    - [DirtyWorkspace]: "Please commit changes before publishing."
    - [MalformedDate]: "Please enter the project initial year as YYYY ... and
      month as MM ..."
    - [MissingDate]: "You must supply projectInitDate with Year and Month in
      ./config.json" *)
Inductive error : Type :=
| DirtyWorkspace
| MalformedDate
| MissingDate.

Inductive result (A : Type) : Type :=
| Return (a : A)
| Throw (e : error).
Arguments Return {A} a.
Arguments Throw {A} e.

Definition bind {A B : Type} (m : result A) (k : A -> result B) : result B :=
  match m with
  | Return a => k a
  | Throw e => Throw e
  end.

(** ** The configuration record ([config.yml]) *)

Record projectInitDate_t : Type := {
  year : Js.value;
  month : Js.value
}.

Record config_t : Type := {
  projectName : string;
  projectInitDate : projectInitDate_t;
  dest : string
}.

(** ** The project date validator (gulpfile.js, lines 54-65) *)

Definition digit : Regex.item := Regex.Range "0" "9".

(** [new RegExp('^[12][0-9]{3}$')] *)
Definition reYear : Regex.regex :=
  Regex.Seq (Regex.Class [Regex.One "1"; Regex.One "2"])
            (Regex.Rep 3 (Regex.Class [digit])).

(** [new RegExp('^(1[0-2]|0[1-9])$')] *)
Definition reMonth : Regex.regex :=
  Regex.Alt
    (Regex.Seq (Regex.Chr "1") (Regex.Class [Regex.Range "0" "2"]))
    (Regex.Seq (Regex.Chr "0") (Regex.Class [Regex.Range "1" "9"])).

Definition checkProjectInitDate (config : config_t) : result unit :=
  let yearString := year (projectInitDate config) in
  let monthString := month (projectInitDate config) in
  if negb (Js.test reYear yearString)
     || Js.type_neq (Js.typeof yearString) Js.TString
     || Js.type_neq (Js.typeof monthString) Js.TString
     || negb (Js.test reMonth monthString)
  then Throw MalformedDate
  else if negb (Js.ToBoolean (year (projectInitDate config)))
          || negb (Js.ToBoolean (month (projectInitDate config)))
  then Throw MissingDate
  else Return tt.

(** The strings the specification calls a valid year and a valid month. *)
Definition is_digit (c : ascii) : bool :=
  (N_of_ascii "0" <=? N_of_ascii c) && (N_of_ascii c <=? N_of_ascii "9").

Definition valid_year (s : string) : Prop :=
  exists c1 c2 c3 c4,
    s = String c1 (String c2 (String c3 (String c4 EmptyString)))
    /\ (c1 = "1"%char \/ c1 = "2"%char)
    /\ is_digit c2 = true /\ is_digit c3 = true /\ is_digit c4 = true.

Definition valid_month (s : string) : Prop :=
  In s ["01"; "02"; "03"; "04"; "05"; "06"; "07"; "08"; "09"; "10"; "11"; "12"].

(** ** Working-tree check (gulpfile.js, lines 45-51) *)

(** Modelled from the spec: [assertClean] of the package git-assert-clean,
    which is not part of the repository.  The specification has the check
    run synchronously and fail when the change-tracking state reports
    uncommitted modifications: the callback is called before [assertClean]
    returns, with an error exactly when the tree is dirty, and what the
    callback throws is thrown by the call. *)
Definition assertClean (dirty : bool) (callback : option unit -> result unit)
  : result unit :=
  callback (if dirty then Some tt else None).

Definition cleanStaging (dirty : bool) : result unit :=
  assertClean dirty (fun err =>
    match err with
    | Some _ => Throw DirtyWorkspace
    | None => Return tt
    end).

(** ** Derived names and paths (gulpfile.js, lines 36-42) *)

Definition yearString (config : config_t) : Js.value := year (projectInitDate config).
Definition monthString (config : config_t) : Js.value := month (projectInitDate config).

(** [`/machinist/dist/${yearString}/${monthString}/${convertedProjectName}/`] *)
Definition objectsLocation (config : config_t) : string :=
  "/machinist/dist/" +:+ Js.ToString (yearString config) +:+ "/"
    +:+ Js.ToString (monthString config) +:+ "/"
    +:+ convertedProjectName (projectName config) +:+ "/".

(** The argument of [publisherStory.sync] at line 115:
    [`machinist/dist/${yearString}/${monthString}/${convertedProjectName}`] *)
Definition storySyncPrefix (config : config_t) : string :=
  "machinist/dist/" +:+ Js.ToString (yearString config) +:+ "/"
    +:+ Js.ToString (monthString config) +:+ "/"
    +:+ convertedProjectName (projectName config).

(** The directory given by the [rename] of publish-assets, line 81. *)
Definition assetsDirname (config : config_t) (dirname : string) : string :=
  "/cdnassets/projects/" +:+ Js.ToString (yearString config) +:+ "/"
    +:+ Js.ToString (monthString config) +:+ "/"
    +:+ convertedProjectName (projectName config) +:+ "/" +:+ dirname.

Record awsConfig : Type := {
  bucketName : Js.value;     (* process.env.* is a string or undefined *)
  region : Js.value
}.

Definition publishedCdnMsg (awsAssetsConfig : awsConfig) : string :=
  "Published to: http://s3-" +:+ Js.ToString (region awsAssetsConfig)
    +:+ ".amazonaws.com/" +:+ Js.ToString (bucketName awsAssetsConfig)
    +:+ "/cdnassets/projects/".

Definition publishedStoryMsg (awsStoryConfig : awsConfig) (config : config_t) : string :=
  "Published to: http://s3-" +:+ Js.ToString (region awsStoryConfig)
    +:+ ".amazonaws.com/" +:+ Js.ToString (bucketName awsStoryConfig)
    +:+ objectsLocation config.

Definition SIM : bool := false.

(** ** Files in a stream *)

(** A vinyl file as the tasks see it: the three parts of its path that
    [gulp-rename] hands to its callback (relative to the base of
    [gulp.src]), its contents, and the Content-Encoding header that
    [awspublish.gzip] sets. *)
Record vinyl : Type := {
  dirname : string;
  basename : string;
  extname : string;                 (* with its dot, or empty *)
  contents : string;
  contentEncoding : option string
}.

(** A file on disk, its path in parts and relative to the directory that
    [gulp.src] globs, and what [gulp.src] makes of it. *)
Record localFile : Type := {
  dir : string;                     (* [.] at the top *)
  name : string;
  ext : string;
  bytes : string
}.

Definition read (f : localFile) : vinyl :=
  {| dirname := dir f;
     basename := name f;
     extname := ext f;
     contents := bytes f;
     contentEncoding := None |}.

(** [rename(function (path) { path.dirname = f(path.dirname) })] *)
Definition rename (f : string -> string) (v : vinyl) : vinyl :=
  {| dirname := f (dirname v);
     basename := basename v;
     extname := extname v;
     contents := contents v;
     contentEncoding := contentEncoding v |}.

Module Path.

(** The segments of a path between its slashes; [cur] is the segment being
    read. *)
Fixpoint segments_from (cur s : string) : list string :=
  match s with
  | EmptyString => [cur]
  | String c t =>
      if Ascii.eqb c "/" then cur :: segments_from EmptyString t
      else segments_from (cur +:+ String c EmptyString) t
  end.

Definition segments (s : string) : list string := segments_from EmptyString s.

Definition trivial (seg : string) : bool :=
  String.eqb seg EmptyString || String.eqb seg ".".

Fixpoint join (segs : list string) : string :=
  match segs with
  | [] => EmptyString
  | [x] => x
  | x :: rest => x +:+ "/" +:+ join rest
  end.

(** One segment on the stack of the segments read so far, the last one
    first: an empty or [.] segment is dropped, [..] takes back the segment
    before it and stays when there is none to take back. *)
Definition step (stack : list string) (seg : string) : list string :=
  if trivial seg then stack
  else if String.eqb seg ".." then
    match stack with
    | top :: below => if String.eqb top ".." then seg :: stack else below
    | [] => [seg]
    end
  else seg :: stack.

Definition resolve (segs : list string) : list string :=
  rev (fold_left step segs []).

(** A relative path as [path.join] and [file.relative] of Node leave it:
    empty and [.] segments dropped, [..] resolved, no leading slash. *)
Definition normalize (s : string) : string := join (resolve (segments s)).

(** A segment that starts with a dot: what a glob does not match unless
    the [dot] option is set. *)
Definition dot_leading (seg : string) : bool :=
  match seg with
  | String c _ => Ascii.eqb c "."
  | EmptyString => false
  end.

End Path.

Definition relative (v : vinyl) : string :=
  Path.normalize (dirname v +:+ "/" +:+ basename v +:+ extname v).

(** The segments of [file.relative]. *)
Definition relative_segments (v : vinyl) : list string :=
  Path.resolve (Path.segments (dirname v +:+ "/" +:+ basename v +:+ extname v)).

(** A file that the globs of [gulp.src] can reach: with the [dot] option
    unset, as here, no directory and no file whose name starts with a dot
    is matched ([.] alone stands for the top directory). *)
Definition hidden (seg : string) : bool :=
  Path.dot_leading seg && negb (String.eqb seg ".").

Definition visible (f : localFile) : bool :=
  forallb (fun seg => negb (hidden seg))
          (Path.segments (dir f +:+ "/" +:+ name f +:+ ext f)).

Definition ext_in (exts : list string) (e : string) : bool :=
  existsb (String.eqb e) exts.

(** ** The remote store and the publisher *)

Record s3object : Type := {
  body : string;
  encoding : option string          (* Content-Encoding *)
}.

Inductive call : Type :=
| HeadObject (key : string)
| PutObject (key : string) (o : s3object)
| ListObjects (prefix : string)
| DeleteObjects (keys : list string).

(** Does a request write to (or delete) the object at key [k]? *)
Definition writes_to (k : string) (c : call) : bool :=
  match c with
  | PutObject k' _ => String.eqb k k'
  | DeleteObjects ks => existsb (String.eqb k) ks
  | HeadObject _ | ListObjects _ => false
  end.

(** What one publisher works on: its bucket, the requests sent to the
    bucket so far, and the publisher's local cache file (key to ETag). *)
Record world : Type := {
  objects : gmap string s3object;
  calls : list call;
  cache : gmap string string
}.

Inductive s3state : Type := NoState | Cache | Skip | Create | Update.

Record publishOptions : Type := {
  simulate : bool;
  createOnly : bool
}.

Inductive outcome : Type :=
| Threw (e : error)               (* the task function threw *)
| Stalled                         (* the prompt was declined: the stream never ends *)
| Finished (msg : string).        (* 'finish', with the message of [log.ok] *)

Section Tasks.

(** The two functions of the platform the publisher relies on: zlib's
    compression and the MD5 digest behind an ETag. *)
Variable gzip : string -> string.
Variable md5 : string -> string.

(** Modelled from the spec: [awspublish.gzip()] of gulp-awspublish, not part
    of the repository: compress the contents and mark the object with a
    content-encoding flag. *)
Definition awspublish_gzip (v : vinyl) : vinyl :=
  {| dirname := dirname v;
     basename := basename v;
     extname := extname v;
     contents := gzip (contents v);
     contentEncoding := Some "gzip" |}.

(** Modelled from the spec: the object key is the publish-path prefix plus
    the relative file path, that is the relative path of the renamed
    file. *)
Definition s3_path (v : vinyl) : string := relative v.

Definition s3_params (v : vinyl) : s3object :=
  {| body := contents v; encoding := contentEncoding v |}.

Definition log_call (c : call) (w : world) : world :=
  {| objects := objects w; calls := calls w ++ [c]; cache := cache w |}.

Definition putObject (key : string) (o : s3object) (w : world) : world :=
  {| objects := <[key := o]> (objects w);
     calls := calls w ++ [PutObject key o];
     cache := cache w |}.

(** Modelled from the spec: [publisher.publish(headers, options)] of
    gulp-awspublish, for one file.  A file whose ETag the cache already
    holds is not sent; otherwise the key is looked up, an object with the
    same ETag is left alone, create-only mode refuses to overwrite an
    existing key, and anything else is uploaded. *)
Definition publish (options : publishOptions) (v : vinyl) (w : world)
  : s3state * world :=
  let key := s3_path v in
  let etag := md5 (contents v) in
  if bool_decide (cache w !! key = Some etag) then (Cache, w)
  else if simulate options then (NoState, w)
  else
    let w1 := log_call (HeadObject key) w in
    match objects w !! key with
    | Some o =>
        if createOnly options || bool_decide (md5 (body o) = etag)
        then (Skip, w1)
        else (Update, putObject key (s3_params v) w1)
    | None => (Create, putObject key (s3_params v) w1)
    end.

(** Modelled from the spec: [publisher.cache()], for one file: the record
    of an uploaded (or looked-up) object is written after it went through
    [publish]. *)
Definition cache_file (v : vinyl) (st : s3state) (w : world) : world :=
  match st with
  | Skip | Create | Update =>
      {| objects := objects w;
         calls := calls w;
         cache := <[s3_path v := md5 (contents v)]> (cache w) |}
  | NoState | Cache => w
  end.

(** Modelled from the spec: [publisher.sync(prefix)]: once every file went
    by, the remote keys with the prefix that have no local counterpart are
    deleted. *)
Definition stale (prefix : string) (keys : list string) (k : string) : bool :=
  String.prefix prefix k && negb (existsb (String.eqb k) keys).

Definition sync (prefix : string) (keys : list string) (w : world) : world :=
  let doomed := List.filter (stale prefix keys) (map fst (map_to_list (objects w))) in
  {| objects := filter (fun kv => stale prefix keys (fst kv) = false) (objects w);
     calls := calls w ++ ListObjects prefix ::
                match doomed with [] => [] | _ => [DeleteObjects doomed] end;
     cache := cache w |}.

(** Modelled from the spec: [prompt.confirm] of gulp-prompt: an
    interactive yes/no gate; on confirmation the files go on, declining
    aborts and nothing reaches the stages after it. *)
Definition prompt_confirm (answer : bool) (files : list vinyl) : option (list vinyl) :=
  if answer then Some files else None.

(** What a task finds around it when it runs. *)
Record env : Type := {
  config : config_t;
  awsStoryConfig : awsConfig;
  awsAssetsConfig : awsConfig;
  uncommitted : bool;               (* does git report changes? *)
  answer : bool;                    (* the operator's answer to the prompt *)
  www : list localFile;             (* the files under [config.dest] *)
  cdnassets : list localFile        (* the files under ./cdnassets *)
}.

(** *** publish-assets (gulpfile.js, lines 68-92) *)

(** [gulp.src('cdnassets/**/*.{jpg,...,pdf}')] *)
Definition assetsExts : list string :=
  [".jpg"; ".png"; ".gif"; ".mp3"; ".ogg"; ".flac"; ".mp4"; ".mov"; ".avi";
   ".webm"; ".zip"; ".rar"; ".webp"; ".txt"; ".csv"; ".json"; ".pdf"].

Definition assetsSrc (e : env) : list vinyl :=
  map read (List.filter (fun f => visible f && ext_in assetsExts (ext f))
                        (cdnassets e)).

(** [filter(['cdnassets/**/*.{txt,csv,json,js,css}'], {restore: true})],
    matched against the relative path of the file as it reaches the
    filter: the first segment is [cdnassets], the extension is one of the
    five, and, the [dot] option being unset, no segment after the first
    starts with a dot. *)
Definition gzipExts : list string := [".txt"; ".csv"; ".json"; ".js"; ".css"].

Definition gzipFilter (v : vinyl) : bool :=
  match relative_segments v with
  | first :: rest =>
      String.eqb first "cdnassets"
      && forallb (fun seg => negb (Path.dot_leading seg)) rest
      && ext_in gzipExts (extname v)
  | [] => false
  end.

(** One file through [rename], [gzipFilter], [awspublish.gzip()] and
    [gzipFilter.restore]. *)
Definition assetsStage (config : config_t) (v : vinyl) : vinyl :=
  let v1 := rename (assetsDirname config) v in
  if gzipFilter v1 then awspublish_gzip v1 else v1.

Definition assetsStream (e : env) : list vinyl :=
  map (assetsStage (config e)) (assetsSrc e).

Definition assetsOptions : publishOptions :=
  {| simulate := SIM; createOnly := true |}.

(** One file through [publisherAssets.publish] and [publisherAssets.cache]. *)
Definition assetsUpload (w : world) (v : vinyl) : world :=
  let '(st, w1) := publish assetsOptions v w in
  cache_file v st w1.

(** A file is settled in a world when its key holds an object or the cache
    holds its ETag: create-only publishing then sends nothing for it. *)
Definition settled (w : world) (v : vinyl) : Prop :=
  is_Some (objects w !! s3_path v)
  \/ cache w !! s3_path v = Some (md5 (contents v)).

(** The cache tells the truth when every key it records holds an object. *)
Definition cache_backed (w : world) : Prop :=
  forall k, is_Some (cache w !! k) -> is_Some (objects w !! k).

Definition publish_assets (e : env) (w : world) : outcome * world :=
  (Finished (publishedCdnMsg (awsAssetsConfig e)),
   fold_left assetsUpload (assetsStream e) w).

(** *** publish-story (gulpfile.js, lines 96-120) *)

(** [gulp.src([config.dest + '/**', '!' + config.dest + '/**/*.{ai,html,jsx}'])] *)
Definition storySrc (e : env) : list vinyl :=
  map read (List.filter (fun f => visible f
                                  && negb (ext_in [".ai"; ".html"; ".jsx"] (ext f)))
                        (www e)).

Definition storyRename (config : config_t) (v : vinyl) : vinyl :=
  rename (fun dirname => objectsLocation config +:+ dirname) v.

Definition storyStream (e : env) : list vinyl :=
  map (storyRename (config e)) (storySrc e).

Definition storyOptions : publishOptions :=
  {| simulate := SIM; createOnly := false |}.

Definition storyUpload (w : world) (v : vinyl) : world :=
  snd (publish storyOptions v w).

Definition preflight (e : env) : result unit :=
  bind (cleanStaging (uncommitted e)) (fun _ => checkProjectInitDate (config e)).

Definition publish_story (e : env) (w : world) : outcome * world :=
  match preflight e with
  | Throw err => (Threw err, w)
  | Return _ =>
      match prompt_confirm (answer e) (storySrc e) with
      | None => (Stalled, w)
      | Some files =>
          let renamed := map (storyRename (config e)) files in
          let w1 := fold_left storyUpload renamed w in
          let w2 := sync (storySyncPrefix (config e)) (map s3_path renamed) w1 in
          (Finished (publishedStoryMsg (awsStoryConfig e) (config e)), w2)
      end
  end.

End Tasks.

(** ** The metadata combiner (gulpfile.js, lines 145-152) *)

Module Json.

(** The values [JSON.parse] yields, and [undefined] for a property that is
    not there.  Numbers are the integers of magnitude below 2^53, which
    [JSON.stringify] prints digit by digit; the fields of an object are in
    property order. *)
#[warnings="-register-all"]
Inductive data : Type :=
| Undefined
| Null
| Bool (b : bool)
| Num (z : Z)
| Str (s : string)
| Arr (items : list data)
| Obj (fields : list (string * data)).

Definition dquote : string := String "034" EmptyString.

Definition hex_digit (n : N) : ascii :=
  if n <? 10 then ascii_of_N (48 + n) else ascii_of_N (87 + n).

(** The escapes of [JSON.stringify] in a string. *)
Definition escape_char (c : ascii) : string :=
  let n := N_of_ascii c in
  if n =? 34 then String "\" dquote
  else if n =? 92 then "\\"
  else if n =? 8 then "\b"
  else if n =? 12 then "\f"
  else if n =? 10 then "\n"
  else if n =? 13 then "\r"
  else if n =? 9 then "\t"
  else if n <? 32
  then "\u00" +:+ String (hex_digit (n / 16)) (String (hex_digit (n mod 16)) EmptyString)
  else String c EmptyString.

Fixpoint escape (s : string) : string :=
  match s with
  | EmptyString => EmptyString
  | String c t => escape_char c +:+ escape t
  end.

Definition quote (s : string) : string := dquote +:+ escape s +:+ dquote.

Fixpoint commas (parts : list string) : string :=
  match parts with
  | [] => EmptyString
  | [x] => x
  | x :: rest => x +:+ "," +:+ commas rest
  end.

(** [JSON.stringify]: [undefined] has no text, is left out of an object
    and reads [null] in an array. *)
Fixpoint stringify (v : data) : option string :=
  match v with
  | Undefined => None
  | Null => Some "null"
  | Bool true => Some "true"
  | Bool false => Some "false"
  | Num z => Some (NilZero.string_of_int (Z.to_int z))
  | Str s => Some (quote s)
  | Arr items =>
      Some ("[" +:+ commas (List.map (fun x =>
                      match stringify x with Some t => t | None => "null" end) items)
                +:+ "]")
  | Obj fields =>
      let fix members (fs : list (string * data)) : list string :=
        match fs with
        | [] => []
        | (k, x) :: rest =>
            match stringify x with
            | Some t => (quote k +:+ ":" +:+ t) :: members rest
            | None => members rest
            end
        end in
      Some ("{" +:+ commas (members fields) +:+ "}")
  end.

(** Reading and writing a property of an object. *)
Fixpoint get (fields : list (string * data)) (k : string) : data :=
  match fields with
  | [] => Undefined
  | (k', x) :: rest => if String.eqb k k' then x else get rest k
  end.

Fixpoint set (fields : list (string * data)) (k : string) (x : data)
  : list (string * data) :=
  match fields with
  | [] => [(k, x)]
  | (k', y) :: rest =>
      if String.eqb k k' then (k', x) :: rest else (k', y) :: set rest k x
  end.

(** A text with ['] where the JSON has its double quote. *)
Fixpoint requote (s : string) : string :=
  match s with
  | EmptyString => EmptyString
  | String c t => (if Ascii.eqb c "'" then dquote else String c EmptyString) +:+ requote t
  end.

End Json.

(** The name of a source under [gulp.src] of a plain path: the last
    segment of the path, here without the five characters of [.json]. *)
Definition json_name (path : string) : string :=
  let file := List.last (Path.segments path) EmptyString in
  String.substring 0 (String.length file - 5) file.

(** Modelled from the spec: [jsoncombine(name, converter)] of
    gulp-jsoncombine, not part of the repository: the parsed documents are
    handed to the converter as one object, each under the name of its file
    without the [.json] extension, and the converter's text is the file
    written. *)
Definition jsoncombine (converter : list (string * Json.data) -> option string)
    (sources : list (string * Json.data)) : option string :=
  converter (fold_left (fun data src => Json.set data (json_name (fst src)) (snd src))
                       sources []).

(** [(data) => Buffer.from(JSON.stringify({embed: data.embed, styles: data.main}))] *)
Definition combineConverter (data : list (string * Json.data)) : option string :=
  Json.stringify (Json.Obj [("embed", Json.get data "embed");
                            ("styles", Json.get data "main")]).

(** The task, on the parsed [embed.json] and [styles/main.json] of
    [config.dest]. *)
Definition combineJson (config : config_t) (embed_json main_json : Json.data)
  : option string :=
  jsoncombine combineConverter
    [(dest config +:+ "/embed.json", embed_json);
     (dest config +:+ "/styles/main.json", main_json)].

(** ** rewriteAssetPath (gulpfile.js, lines 136-142) *)

(** The [path] option handed to [inlineImagePath]:
    [`${config.assetPath.domain}/machinist/dist/${yearString}/${monthString}/${convertedProjectName}`],
    with [config.assetPath.domain] as its first argument. *)
Definition rewriteAssetPath_path (domain : Js.value) (config : config_t) : string :=
  Js.ToString domain +:+ "/machinist/dist/" +:+ Js.ToString (yearString config)
    +:+ "/" +:+ Js.ToString (monthString config)
    +:+ "/" +:+ convertedProjectName (projectName config).

(** ** Vocabulary for the further properties *)

(** A string that is one path segment: no slash in it. *)
Fixpoint no_slash (s : string) : bool :=
  match s with
  | EmptyString => true
  | String c t => negb (Ascii.eqb c "/") && no_slash t
  end.

(** A segment that [path.join] keeps as it is: no slash, not empty, not [.]
    and not [..]. *)
Definition plain (s : string) : bool :=
  no_slash s && negb (Path.trivial s) && negb (String.eqb s "..").

(** The requests that change the bucket. *)
Definition is_write (c : call) : bool :=
  match c with
  | PutObject _ _ | DeleteObjects _ => true
  | HeadObject _ | ListObjects _ => false
  end.

Definition is_delete (c : call) : bool :=
  match c with
  | DeleteObjects _ => true
  | HeadObject _ | PutObject _ _ | ListObjects _ => false
  end.

(** The last character of a string, if any. *)
Fixpoint last_char (s : string) : option ascii :=
  match s with
  | EmptyString => None
  | String c EmptyString => Some c
  | String _ t => last_char t
  end.

(** ** Sample inputs *)

Definition dateOf (y m : Js.value) : config_t :=
  {| projectName := "My   Cool  Story";
     projectInitDate := {| year := y; month := m |};
     dest := "www" |}.

(** [year: "2017"] and [month: "01"], quoted in [config.yml]. *)
Definition quotedDate : config_t := dateOf (Js.Str "2017") (Js.Str "01").

(** [year: 2017], unquoted: YAML reads a number. *)
Definition unquotedYear : config_t := dateOf (Js.Number 2017) (Js.Str "01").

Definition sampleAws : awsConfig :=
  {| bucketName := Js.Str "bucket"; region := Js.Undefined |}.

Definition sampleEnv : env :=
  {| config := quotedDate;
     awsStoryConfig := sampleAws;
     awsAssetsConfig := sampleAws;
     uncommitted := false;
     answer := true;
     www := [ {| dir := "."; name := "index"; ext := ".html"; bytes := "<html>" |};
              {| dir := "styles"; name := "main"; ext := ".css"; bytes := "body{}" |} ];
     cdnassets := [ {| dir := "."; name := "data"; ext := ".json"; bytes := "{}" |};
                    {| dir := "img"; name := "logo"; ext := ".png"; bytes := "PNG" |} ] |}.

Definition withAnswer (a : bool) (e : env) : env :=
  {| config := config e;
     awsStoryConfig := awsStoryConfig e;
     awsAssetsConfig := awsAssetsConfig e;
     uncommitted := uncommitted e;
     answer := a;
     www := www e;
     cdnassets := cdnassets e |}.

Definition withUncommitted (d : bool) (e : env) : env :=
  {| config := config e;
     awsStoryConfig := awsStoryConfig e;
     awsAssetsConfig := awsAssetsConfig e;
     uncommitted := d;
     answer := answer e;
     www := www e;
     cdnassets := cdnassets e |}.

Definition emptyWorld : world :=
  {| objects := ∅; calls := []; cache := ∅ |}.

(** Stand-ins for the two platform functions, to run the tasks. *)
Definition sampleGzip (s : string) : string := "gz:" +:+ s.
Definition sampleMd5 (s : string) : string := s.

Definition withConfig (c : config_t) (e : env) : env :=
  {| config := c;
     awsStoryConfig := awsStoryConfig e;
     awsAssetsConfig := awsAssetsConfig e;
     uncommitted := uncommitted e;
     answer := answer e;
     www := www e;
     cdnassets := cdnassets e |}.

(** A bucket that holds a file of an earlier publish that is gone locally,
    and the style sheet as it is on disk. *)
Definition sampleWorld : world :=
  {| objects :=
       <["machinist/dist/2017/01/my-cool-story/old.js" :=
           {| body := "old()"; encoding := None |}]>
       (<["machinist/dist/2017/01/my-cool-story/styles/main.css" :=
           {| body := "body{}"; encoding := None |}]> ∅);
     calls := [];
     cache := ∅ |}.

(** A bucket where an earlier [data.json] is published already. *)
Definition sampleAssetsWorld : world :=
  {| objects := {["cdnassets/projects/2017/01/my-cool-story/data.json" :=
                    {| body := "first"; encoding := None |}]};
     calls := [];
     cache := ∅ |}.

Definition sampleCss : vinyl :=
  {| dirname := "/machinist/dist/2017/01/my-cool-story/styles";
     basename := "main";
     extname := ".css";
     contents := "body{}";
     contentEncoding := None |}.

(** The page of the sample project, and a bucket that holds it as it is on
    disk. *)
Definition sampleIndex : localFile :=
  {| dir := "."; name := "index"; ext := ".html"; bytes := "<html>" |}.

Definition samplePageWorld : world :=
  {| objects := {["machinist/dist/2017/01/my-cool-story/index.html" :=
                    {| body := "<html>"; encoding := None |}]};
     calls := [];
     cache := ∅ |}.

(** A project whose name, and so whose slug, starts with a dot. *)
Definition dotNetConfig : config_t :=
  {| projectName := ".NET Story";
     projectInitDate := {| year := Js.Str "2017"; month := Js.Str "01" |};
     dest := "www" |}.

Definition sampleJson : localFile :=
  {| dir := "."; name := "data"; ext := ".json"; bytes := "{}" |}.


(** * Properties *)

(** ** The definitions on sample inputs *)

Example year_patterns :
  map (Regex.matches reYear) ["2017"; "1999"; "3017"; "017"; "20171"; "2o17"]
  = [true; true; false; false; false; false].
Proof. reflexivity. Qed.

Example month_patterns :
  map (Regex.matches reMonth) ["01"; "09"; "10"; "12"; "00"; "13"; "1"; "012"]
  = [true; true; true; true; false; false; false; false].
Proof. reflexivity. Qed.

Example slug_of_sample : convertedProjectName "My   Cool  Story" = "my-cool-story".
Proof. reflexivity. Qed.

(** A leading TAB, and the code unit 201 (E with acute), whose lower case
    is 233. *)
Example slug_tab_and_latin1 :
  convertedProjectName (String "009" (String "201" "T  A"))
  = String "-" (String "233" "t-a").
Proof. reflexivity. Qed.

Example validator_quoted : checkProjectInitDate quotedDate = Return tt.
Proof. reflexivity. Qed.

Example validator_unquoted : checkProjectInitDate unquotedYear = Throw MalformedDate.
Proof. reflexivity. Qed.

Example validator_absent :
  checkProjectInitDate (dateOf Js.Undefined Js.Undefined) = Throw MalformedDate.
Proof. reflexivity. Qed.

Example story_on_sample :
  publish_story sampleMd5 sampleEnv emptyWorld =
  (Finished "Published to: http://s3-undefined.amazonaws.com/bucket/machinist/dist/2017/01/my-cool-story/",
   {| objects :=
        {["machinist/dist/2017/01/my-cool-story/styles/main.css" :=
            {| body := "body{}"; encoding := None |}]};
      calls :=
        [HeadObject "machinist/dist/2017/01/my-cool-story/styles/main.css";
         PutObject "machinist/dist/2017/01/my-cool-story/styles/main.css"
           {| body := "body{}"; encoding := None |};
         ListObjects "machinist/dist/2017/01/my-cool-story"];
      cache := ∅ |}).
Proof. reflexivity. Qed.

Example assets_on_sample :
  calls (snd (publish_assets sampleGzip sampleMd5 sampleEnv emptyWorld)) =
  [HeadObject "cdnassets/projects/2017/01/my-cool-story/data.json";
   PutObject "cdnassets/projects/2017/01/my-cool-story/data.json"
     {| body := "gz:{}"; encoding := Some "gzip" |};
   HeadObject "cdnassets/projects/2017/01/my-cool-story/img/logo.png";
   PutObject "cdnassets/projects/2017/01/my-cool-story/img/logo.png"
     {| body := "PNG"; encoding := None |}].
Proof. reflexivity. Qed.

(** ** Strings *)

Lemma append_assoc (a b c : string) : (a +:+ b) +:+ c = a +:+ (b +:+ c).
Proof. induction a as [|x a IH]; simpl; [reflexivity | now rewrite IH]. Qed.

Lemma append_empty_r (a : string) : a +:+ EmptyString = a.
Proof. induction a as [|x a IH]; simpl; [reflexivity | now rewrite IH]. Qed.

Module SlugFacts.
Import JsString.

Lemma toLowerCase_app (a b : string) :
  toLowerCase (a +:+ b) = toLowerCase a +:+ toLowerCase b.
Proof. induction a as [|x a IH]; simpl; [reflexivity | now rewrite IH]. Qed.

(** Lower-casing neither makes nor removes white space. *)
Lemma lower_char_space (c : ascii) : is_space (lower_char c) = is_space c.
Proof. destruct c as [[] [] [] [] [] [] [] []]; reflexivity. Qed.

Lemma has_space_toLowerCase (s : string) : has_space (toLowerCase s) = has_space s.
Proof.
  induction s as [|c s IH]; simpl; [reflexivity|].
  now rewrite lower_char_space, IH.
Qed.

Lemma has_space_replace (f : bool) (s : string) :
  has_space (replace_spaces_from f s) = false.
Proof.
  revert f; induction s as [|c s IH]; intros f; simpl; [reflexivity|].
  destruct (is_space c) eqn:Hc.
  - destruct f; simpl; apply IH.
  - simpl. now rewrite Hc, IH.
Qed.

Lemma replace_no_space (f : bool) (s : string) :
  has_space s = false -> replace_spaces_from f s = s.
Proof.
  revert f; induction s as [|c s IH]; intros f; simpl; [reflexivity|].
  intros H. apply orb_false_iff in H as [Hc Hs].
  rewrite Hc. now rewrite IH.
Qed.

(** The scan of [a +:+ b] is the scan of [a] followed by the scan of [b],
    started in the state in which [a] leaves it. *)
Lemma replace_app (f : bool) (a b : string) :
  replace_spaces_from f (a +:+ b) =
  replace_spaces_from f a +:+ replace_spaces_from (state_after f a) b.
Proof.
  revert f; induction a as [|c a IH]; intros f; [reflexivity|].
  assert (Hst : forall g, state_after g (String c a) = state_after (is_space c) a).
  { intros g. destruct a; reflexivity. }
  rewrite Hst. simpl append. simpl replace_spaces_from.
  destruct (is_space c) eqn:Hc.
  - destruct f; rewrite IH; reflexivity.
  - rewrite IH. reflexivity.
Qed.

(** A run of white space gives one hyphen, or none when the hyphen of the
    run was written before. *)
Lemma replace_run (f : bool) (w b : string) :
  w <> EmptyString -> all_spaces w = true ->
  replace_spaces_from f (w +:+ b) =
  (if f then EmptyString else "-") +:+ replace_spaces_from true b.
Proof.
  revert f; induction w as [|c w IH]; intros f Hne Hw; [congruence|].
  simpl in Hw. apply andb_true_iff in Hw as [Hc Hw].
  simpl append. simpl replace_spaces_from. rewrite Hc.
  destruct w as [|d w].
  - destruct f; reflexivity.
  - rewrite (IH true) by (congruence || assumption). destruct f; reflexivity.
Qed.

Lemma replace_after_run (b : string) :
  starts_with_space b = false ->
  replace_spaces_from true b = replace_spaces_from false b.
Proof. destruct b as [|c b]; simpl; [reflexivity|]. now intros ->. Qed.

(** The scan restarts after the longest match, as the engine does. *)
Lemma replace_skip (c : ascii) (t : string) :
  replace_spaces (String c t) =
  if is_space c then String "-" (replace_spaces (skip_spaces t))
  else String c (replace_spaces t).
Proof.
  unfold replace_spaces. simpl. destruct (is_space c); [|reflexivity].
  f_equal. induction t as [|d t IH]; simpl; [reflexivity|].
  destruct (is_space d) eqn:Hd; [exact IH|]. simpl. now rewrite Hd.
Qed.

End SlugFacts.

(** C1 (as amended): the project name is normalised by putting one hyphen
    for each maximal run of white space, leading and trailing runs
    included (nothing is trimmed), and lower-casing: a name without white
    space is only lower-cased, a run between two parts becomes the single
    hyphen that joins their slugs, the slug holds no white space, [My   Cool
    Story] with its runs of spaces gives [my-cool-story], and equal names
    give equal slugs. *)
Theorem C1_slug_one_hyphen_per_run :
  (forall s, JsString.has_space s = false ->
     convertedProjectName s = JsString.toLowerCase s)
  /\ (forall a w b,
        w <> EmptyString -> JsString.all_spaces w = true ->
        JsString.ends_with_space a = false ->
        JsString.starts_with_space b = false ->
        convertedProjectName (a +:+ w +:+ b) =
        convertedProjectName a +:+ "-" +:+ convertedProjectName b)
  /\ (forall s, JsString.has_space (convertedProjectName s) = false)
  /\ convertedProjectName "My   Cool  Story" = "my-cool-story"
  /\ (forall s1 s2, s1 = s2 -> convertedProjectName s1 = convertedProjectName s2).
Proof.
  unfold convertedProjectName, JsString.replace_spaces.
  split; [|split; [|split; [|split]]].
  - intros s H. now rewrite SlugFacts.replace_no_space.
  - intros a w b Hne Hw Ha Hb.
    rewrite SlugFacts.replace_app.
    assert (Hst : JsString.state_after false a = false) by (destruct a; auto).
    rewrite Hst, (SlugFacts.replace_run false w b Hne Hw).
    rewrite (SlugFacts.replace_after_run b Hb).
    now rewrite !SlugFacts.toLowerCase_app.
  - intros s. rewrite SlugFacts.has_space_toLowerCase.
    apply SlugFacts.has_space_replace.
  - reflexivity.
  - now intros s1 s2 ->.
Qed.

(** C1, witness: a name with a leading run and an inner run. *)
Lemma C1_slug_one_hyphen_per_run_witness :
  convertedProjectName (" My" +:+ "   " +:+ "Story") =
  convertedProjectName " My" +:+ "-" +:+ convertedProjectName "Story".
Proof.
  apply (proj1 (proj2 C1_slug_one_hyphen_per_run));
    [discriminate | reflexivity | reflexivity | reflexivity].
Defined.

(** C1, counterexample: the slug of a name with white space at its ends
    keeps a hyphen for each end, where trimming first would give none. *)
Lemma C1_not_trimmed :
  convertedProjectName "  My Story " = "-my-story-"
  /\ slug_as_specified "  My Story " = "my-story"
  /\ convertedProjectName "  My Story " <> slug_as_specified "  My Story ".
Proof. repeat split. discriminate. Qed.

(** ** The matcher decides the language of a pattern *)

Module RegexFacts.
Import Regex.

Lemma lang_seq_inv r1 r2 s :
  lang (Seq r1 r2) s -> exists s1 s2, s = s1 +:+ s2 /\ lang r1 s1 /\ lang r2 s2.
Proof. inversion 1; subst; eauto. Qed.

Lemma lang_alt_inv r1 r2 s : lang (Alt r1 r2) s -> lang r1 s \/ lang r2 s.
Proof. inversion 1; subst; auto. Qed.

Lemma lang_class_inv cs s :
  lang (Class cs) s -> exists c, s = String c EmptyString /\ in_class c cs = true.
Proof. inversion 1; subst; eauto. Qed.

Lemma lang_eps_inv s : lang Eps s -> s = EmptyString.
Proof. now inversion 1. Qed.

Lemma lang_void_inv s : ~ lang Void s.
Proof. inversion 1. Qed.

Lemma append_empty_inv (a b : string) :
  a +:+ b = EmptyString -> a = EmptyString /\ b = EmptyString.
Proof. destruct a; simpl; [auto | discriminate]. Qed.

Lemma nullable_lang r : nullable r = true <-> lang r EmptyString.
Proof.
  induction r as [| |cs|r1 IH1 r2 IH2|r1 IH1 r2 IH2]; simpl.
  - split; [discriminate | intros H; now apply lang_void_inv in H].
  - split; [constructor | reflexivity].
  - split; [discriminate | intros H; apply lang_class_inv in H as (c & H & _); discriminate].
  - rewrite andb_true_iff, IH1, IH2. split.
    + intros [H1 H2]. exact (lang_seq r1 r2 _ _ H1 H2).
    + intros H. apply lang_seq_inv in H as (s1 & s2 & Heq & H1 & H2).
      symmetry in Heq. apply append_empty_inv in Heq as [-> ->]. auto.
  - rewrite orb_true_iff, IH1, IH2. split.
    + intros [H|H]; [now apply lang_alt_l | now apply lang_alt_r].
    + apply lang_alt_inv.
Qed.

Lemma deriv_lang c r : forall s, lang (deriv c r) s <-> lang r (String c s).
Proof.
  induction r as [| |cs|r1 IH1 r2 IH2|r1 IH1 r2 IH2]; intros s; simpl.
  - split; intros H; now apply lang_void_inv in H.
  - split; intros H; [now apply lang_void_inv in H|].
    apply lang_eps_inv in H. discriminate.
  - destruct (in_class c cs) eqn:Hc; split; intros H.
    + apply lang_eps_inv in H as ->. now constructor.
    + apply lang_class_inv in H as (d & [= -> ->] & _). constructor.
    + now apply lang_void_inv in H.
    + apply lang_class_inv in H as (d & [= -> ->] & Hd). congruence.
  - assert (Hseq : lang (Seq (deriv c r1) r2) s \/ (nullable r1 = true /\ lang (deriv c r2) s)
                   <-> lang (Seq r1 r2) (String c s)).
    { split.
      - intros [H|[Hn H]].
        + apply lang_seq_inv in H as (s1 & s2 & -> & H1 & H2).
          apply IH1 in H1.
          exact (lang_seq r1 r2 (String c s1) s2 H1 H2).
        + apply nullable_lang in Hn. apply IH2 in H.
          exact (lang_seq r1 r2 EmptyString _ Hn H).
      - intros H. apply lang_seq_inv in H as (s1 & s2 & Heq & H1 & H2).
        destruct s1 as [|d s1]; simpl in Heq.
        + subst s2. right. split; [now apply nullable_lang | now apply IH2].
        + injection Heq as <- ->. left.
          apply IH1 in H1. exact (lang_seq _ _ _ _ H1 H2). }
    rewrite <- Hseq. destruct (nullable r1); split.
    + intros H. apply lang_alt_inv in H as [H|H]; auto.
    + intros [H|[_ H]]; [now apply lang_alt_l | now apply lang_alt_r].
    + auto.
    + intros [H|[Hn _]]; [exact H | discriminate].
  - split.
    + intros H. apply lang_alt_inv in H as [H|H];
        [apply lang_alt_l; now apply IH1 | apply lang_alt_r; now apply IH2].
    + intros H. apply lang_alt_inv in H as [H|H];
        [apply lang_alt_l; now apply IH1 | apply lang_alt_r; now apply IH2].
Qed.

Theorem matches_lang s : forall r, matches r s = true <-> lang r s.
Proof.
  induction s as [|c s IH]; intros r; simpl.
  - apply nullable_lang.
  - rewrite IH. apply deriv_lang.
Qed.

Lemma in_item_one c d : in_item c (One d) = true -> c = d.
Proof.
  simpl. intros H. apply N.eqb_eq in H.
  rewrite <- (ascii_N_embedding c), <- (ascii_N_embedding d). now f_equal.
Qed.

End RegexFacts.

(** ** The date patterns *)

Lemma reYear_valid (s : string) : Regex.matches reYear s = true <-> valid_year s.
Proof.
  rewrite RegexFacts.matches_lang. unfold reYear, valid_year. simpl Regex.Rep. split.
  - intros H.
    apply RegexFacts.lang_seq_inv in H as (s1 & t1 & -> & H1 & H).
    apply RegexFacts.lang_seq_inv in H as (s2 & t2 & -> & H2 & H).
    apply RegexFacts.lang_seq_inv in H as (s3 & t3 & -> & H3 & H).
    apply RegexFacts.lang_seq_inv in H as (s4 & t4 & -> & H4 & H).
    apply RegexFacts.lang_eps_inv in H as ->.
    apply RegexFacts.lang_class_inv in H1 as (c1 & -> & H1).
    apply RegexFacts.lang_class_inv in H2 as (c2 & -> & H2).
    apply RegexFacts.lang_class_inv in H3 as (c3 & -> & H3).
    apply RegexFacts.lang_class_inv in H4 as (c4 & -> & H4).
    exists c1, c2, c3, c4. simpl.
    unfold Regex.in_class in *. cbn [existsb] in *.
    rewrite orb_false_r in H1, H2, H3, H4.
    repeat split; try assumption.
    apply orb_true_iff in H1 as [H1|H1]; apply RegexFacts.in_item_one in H1; auto.
  - intros (c1 & c2 & c3 & c4 & -> & Hc1 & H2 & H3 & H4).
    assert (Hd : forall c, is_digit c = true ->
               Regex.lang (Regex.Class [digit]) (String c EmptyString)).
    { intros c Hc. constructor. unfold Regex.in_class. cbn [existsb].
      now rewrite orb_false_r. }
    apply (Regex.lang_seq _ _ (String c1 EmptyString)).
    { constructor. destruct Hc1 as [-> | ->]; reflexivity. }
    apply (Regex.lang_seq _ _ (String c2 EmptyString)); [now apply Hd|].
    apply (Regex.lang_seq _ _ (String c3 EmptyString)); [now apply Hd|].
    apply (Regex.lang_seq _ _ (String c4 EmptyString) EmptyString); [now apply Hd|].
    constructor.
Qed.

Lemma reMonth_valid (s : string) : Regex.matches reMonth s = true <-> valid_month s.
Proof.
  split.
  - rewrite RegexFacts.matches_lang. unfold reMonth, valid_month, Regex.Chr. intros H.
    apply RegexFacts.lang_alt_inv in H as [H|H];
      apply RegexFacts.lang_seq_inv in H as (s1 & s2 & -> & H1 & H2);
      apply RegexFacts.lang_class_inv in H1 as (c1 & -> & H1);
      apply RegexFacts.lang_class_inv in H2 as (c2 & -> & H2);
      unfold Regex.in_class in H1, H2; cbn [existsb] in H1, H2;
      rewrite orb_false_r in H1, H2;
      apply RegexFacts.in_item_one in H1; subst c1;
      destruct c2 as [[] [] [] [] [] [] [] []]; try discriminate H2;
      simpl; tauto.
  - unfold valid_month. simpl.
    intros H. repeat (destruct H as [<- | H]; [reflexivity|]). destruct H.
Qed.

Lemma matches_nonempty_truthy (r : Regex.regex) (s : string) :
  Regex.nullable r = false -> Regex.matches r s = true -> Js.ToBoolean (Js.Str s) = true.
Proof. destruct s; simpl; [congruence | reflexivity]. Qed.

Lemma typeof_string (v : Js.value) :
  Js.type_neq (Js.typeof v) Js.TString = false <-> exists s, v = Js.Str s.
Proof.
  destruct v; simpl; split; try discriminate; eauto;
    intros [s' H]; discriminate.
Qed.

(** The first check lets through only two strings that match the patterns. *)
Lemma first_check_passed (config : config_t) :
  checkProjectInitDate config <> Throw MalformedDate ->
  exists y m,
    year (projectInitDate config) = Js.Str y
    /\ month (projectInitDate config) = Js.Str m
    /\ Regex.matches reYear y = true /\ Regex.matches reMonth m = true.
Proof.
  unfold checkProjectInitDate.
  destruct (negb _ || _ || _ || _) eqn:H; [congruence|]. intros _.
  apply orb_false_iff in H as [H Hrm].
  apply orb_false_iff in H as [H Hm].
  apply orb_false_iff in H as [Hry Hy].
  apply typeof_string in Hy as [y Hy].
  apply typeof_string in Hm as [m Hm].
  exists y, m. rewrite Hy in Hry. rewrite Hm in Hrm.
  unfold Js.test in Hry, Hrm. simpl in Hry, Hrm.
  repeat split; try assumption; now apply negb_false_iff.
Qed.

Lemma checkProjectInitDate_strings (config : config_t) (y m : string) :
  year (projectInitDate config) = Js.Str y ->
  month (projectInitDate config) = Js.Str m ->
  checkProjectInitDate config =
  if Regex.matches reYear y && Regex.matches reMonth m
  then Return tt else Throw MalformedDate.
Proof.
  intros Hy Hm. unfold checkProjectInitDate. rewrite Hy, Hm.
  unfold Js.test. cbn [Js.ToString Js.typeof Js.type_neq].
  destruct (Regex.matches reYear y) eqn:My; [|reflexivity].
  destruct (Regex.matches reMonth m) eqn:Mm;
    cbn [negb orb andb]; [|reflexivity].
  rewrite (matches_nonempty_truthy reYear y), (matches_nonempty_truthy reMonth m);
    auto.
Qed.

(** C2: on a year and a month that are strings, the date validator returns
    without throwing exactly when the year matches [^[12][0-9]{3}$] and the
    month matches [^(1[0-2]|0[1-9])$]; it accepts every four-digit year
    that starts with 1 or 2 together with every month from 01 to 12, and
    throws on every other pair of strings. *)
Theorem C2_date_validator_on_strings (config : config_t) (y m : string) :
  year (projectInitDate config) = Js.Str y ->
  month (projectInitDate config) = Js.Str m ->
  (checkProjectInitDate config = Return tt <->
     Regex.matches reYear y = true /\ Regex.matches reMonth m = true)
  /\ (valid_year y /\ valid_month m -> checkProjectInitDate config = Return tt)
  /\ (~ (valid_year y /\ valid_month m) ->
        exists e, checkProjectInitDate config = Throw e).
Proof.
  intros Hy Hm. rewrite (checkProjectInitDate_strings config y m Hy Hm).
  rewrite <- reYear_valid, <- reMonth_valid.
  destruct (Regex.matches reYear y), (Regex.matches reMonth m); simpl;
    (split; [split; [intros H; try discriminate H; auto | intros [? ?]; congruence]|]);
    (split; [intros [? ?]; congruence | intros H]);
    solve [exfalso; apply H; auto | eauto].
Qed.

(** C2, witness: the date 2017/01. *)
Lemma C2_date_validator_on_strings_witness :
  checkProjectInitDate quotedDate = Return tt.
Proof.
  apply (proj1 (proj2 (C2_date_validator_on_strings quotedDate "2017" "01"
                         eq_refl eq_refl))).
  split; [apply reYear_valid | apply reMonth_valid]; reflexivity.
Defined.

(** C10: the second [throw] of the date validator is never reached: no
    configuration makes it throw the missing-date error, and whenever the
    year or the month is absent or is not a string the first check throws
    the malformed-date error. *)
Theorem C10_missing_date_branch_unreachable :
  (forall config, checkProjectInitDate config <> Throw MissingDate)
  /\ (forall config,
        Js.typeof (year (projectInitDate config)) <> Js.TString
        \/ Js.typeof (month (projectInitDate config)) <> Js.TString ->
        checkProjectInitDate config = Throw MalformedDate).
Proof.
  split.
  - intros config H.
    destruct (first_check_passed config) as (y & m & Hy & Hm & My & Mm);
      [congruence|].
    rewrite (checkProjectInitDate_strings config y m Hy Hm), My, Mm in H.
    discriminate.
  - intros config H.
    destruct (checkProjectInitDate config) as [[]|[]] eqn:E; try reflexivity;
      (destruct (first_check_passed config) as (y & m & Hy & Hm & _);
        [congruence|]);
      rewrite Hy, Hm in H; simpl in H; destruct H as [H|H]; congruence.
Qed.

(** C10, witness: an unquoted year is a number and stops at the first check,
    although its digits match the pattern. *)
Lemma C10_missing_date_branch_unreachable_witness :
  Js.test reYear (year (projectInitDate unquotedYear)) = true
  /\ checkProjectInitDate unquotedYear = Throw MalformedDate.
Proof.
  split; [reflexivity|].
  apply (proj2 C10_missing_date_branch_unreachable unquotedYear).
  left. discriminate.
Defined.

(** ** The publish tasks *)

Lemma existsb_eqb_In (k : string) (keys : list string) :
  existsb (String.eqb k) keys = true <-> In k keys.
Proof.
  rewrite existsb_exists. split.
  - intros (x & Hx & E). apply String.eqb_eq in E. now subst.
  - intros H. exists k. split; [assumption | apply String.eqb_refl].
Qed.

Lemma NoDup_map_inj {A B : Type} (h : A -> B) (l : list A) (x y : A) :
  List.NoDup (map h l) -> In x l -> In y l -> h x = h y -> x = y.
Proof.
  induction l as [|a l IH]; simpl; [tauto|].
  intros Hnd Hx Hy E. inversion Hnd as [|? ? Hnotin Hnd']; subst.
  destruct Hx as [->|Hx], Hy as [->|Hy]; auto.
  - exfalso. apply Hnotin. rewrite E. now apply in_map.
  - exfalso. apply Hnotin. rewrite <- E. now apply in_map.
Qed.

Lemma fold_left_invariant {A B : Type} (P : A -> Prop) (step : A -> B -> A)
    (l : list B) :
  (forall a b, In b l -> P a -> P (step a b)) ->
  forall a, P a -> P (fold_left step l a).
Proof.
  induction l as [|b l IH]; simpl; intros Hstep a Ha; [assumption|].
  apply IH; [intros; apply Hstep; auto | apply Hstep; auto].
Qed.

Section TaskFacts.

Variable gzip : string -> string.
Variable md5 : string -> string.

(** *** Create-only publishing *)

(** The three ways of a file through [publish] and [cache] in
    publish-assets: found in the cache, found in the bucket, or created. *)
Lemma assetsUpload_cases (w : world) (v : vinyl) :
  (cache w !! s3_path v = Some (md5 (contents v)) /\ assetsUpload md5 w v = w)
  \/ (is_Some (objects w !! s3_path v)
      /\ objects (assetsUpload md5 w v) = objects w
      /\ calls (assetsUpload md5 w v) = calls w ++ [HeadObject (s3_path v)]
      /\ cache (assetsUpload md5 w v) = <[s3_path v := md5 (contents v)]> (cache w))
  \/ (objects w !! s3_path v = None
      /\ cache w !! s3_path v <> Some (md5 (contents v))
      /\ objects (assetsUpload md5 w v) = <[s3_path v := s3_params v]> (objects w)
      /\ calls (assetsUpload md5 w v) =
           calls w ++ [HeadObject (s3_path v); PutObject (s3_path v) (s3_params v)]
      /\ cache (assetsUpload md5 w v) = <[s3_path v := md5 (contents v)]> (cache w)).
Proof.
  unfold assetsUpload, publish, assetsOptions, SIM.
  cbn [simulate createOnly orb].
  case_bool_decide as Hc; [left; auto|].
  destruct (objects w !! s3_path v) as [o|] eqn:Ho; simpl.
  - right; left. eauto.
  - right; right. rewrite <- app_assoc. auto.
Qed.

Lemma filter_writes_snoc (k : string) (old new : list call) :
  List.filter (writes_to k) new = [] ->
  List.filter (writes_to k) (old ++ new) = List.filter (writes_to k) old.
Proof. intros H. now rewrite List.filter_app, H, app_nil_r. Qed.

Lemma writes_to_other (k k' : string) (o : s3object) :
  k' <> k -> writes_to k (PutObject k' o) = false.
Proof. intros H. simpl. apply String.eqb_neq. congruence. Qed.

(** An object of the bucket is kept, and no request writes to its key. *)
Lemma assetsUpload_keeps (w : world) (v : vinyl) (k : string) (o : s3object) :
  objects w !! k = Some o ->
  objects (assetsUpload md5 w v) !! k = Some o
  /\ List.filter (writes_to k) (calls (assetsUpload md5 w v))
     = List.filter (writes_to k) (calls w).
Proof.
  intros Hk.
  destruct (assetsUpload_cases w v)
    as [[_ ->]|[(_ & -> & -> & _)|(Hnone & _ & -> & -> & _)]].
  - auto.
  - split; [assumption | now apply filter_writes_snoc].
  - assert (Hne : s3_path v <> k) by congruence. split.
    + now rewrite lookup_insert_ne.
    + apply filter_writes_snoc. cbn [List.filter writes_to].
      change (String.eqb k (s3_path v)) with (writes_to k (PutObject (s3_path v) (s3_params v))).
      now rewrite writes_to_other.
Qed.

Lemma assetsUpload_settles (w : world) (v : vinyl) : settled md5 (assetsUpload md5 w v) v.
Proof.
  unfold settled.
  destruct (assetsUpload_cases w v) as [[Hc ->]|[(Hs & -> & _)|(_ & _ & -> & _)]];
    auto.
  left. rewrite lookup_insert_eq. eauto.
Qed.

Lemma assetsUpload_settled_stays (w : world) (v f : vinyl) :
  settled md5 w f -> settled md5 (assetsUpload md5 w v) f.
Proof.
  unfold settled. intros Hf.
  destruct (assetsUpload_cases w v)
    as [[_ ->]|[(Hs & Ho & _ & Hc)|(_ & _ & Ho & _ & Hc)]];
    [assumption| |]; rewrite Ho, Hc.
  - destruct (decide (s3_path v = s3_path f)) as [E|E].
    + left. now rewrite <- E.
    + rewrite lookup_insert_ne by assumption. assumption.
  - destruct (decide (s3_path v = s3_path f)) as [E|E].
    + left. rewrite E, lookup_insert_eq. eauto.
    + rewrite !lookup_insert_ne by assumption. assumption.
Qed.

Lemma assetsUpload_settled_objects (w : world) (v : vinyl) :
  settled md5 w v -> objects (assetsUpload md5 w v) = objects w.
Proof.
  intros Hv.
  destruct (assetsUpload_cases w v) as [[_ ->]|[(_ & -> & _)|(Hnone & Hc & _)]];
    try reflexivity.
  destruct Hv as [[o Ho]|Hv]; congruence.
Qed.

Lemma assets_run_keeps (fs : list vinyl) (k : string) (o : s3object) (w : world) :
  objects w !! k = Some o ->
  objects (fold_left (assetsUpload md5) fs w) !! k = Some o
  /\ List.filter (writes_to k) (calls (fold_left (assetsUpload md5) fs w))
     = List.filter (writes_to k) (calls w).
Proof.
  intros Hk.
  apply (fold_left_invariant
           (fun w' => objects w' !! k = Some o
                      /\ List.filter (writes_to k) (calls w')
                         = List.filter (writes_to k) (calls w))); [|auto].
  intros a b _ [Ha Hc].
  destruct (assetsUpload_keeps a b k o Ha) as [Ho' Hc']. split; congruence.
Qed.

Lemma assets_run_settles (fs : list vinyl) :
  forall w, Forall (settled md5 (fold_left (assetsUpload md5) fs w)) fs.
Proof.
  induction fs as [|v fs IH]; intros w; simpl; constructor.
  - apply (fold_left_invariant (fun w => settled md5 w v)).
    + intros a b _. apply assetsUpload_settled_stays.
    + apply assetsUpload_settles.
  - apply IH.
Qed.

Lemma assets_rerun_objects (fs : list vinyl) :
  forall w, Forall (settled md5 w) fs ->
            objects (fold_left (assetsUpload md5) fs w) = objects w.
Proof.
  intros w Hall.
  enough (H : Forall (settled md5 (fold_left (assetsUpload md5) fs w)) fs
              /\ objects (fold_left (assetsUpload md5) fs w) = objects w) by apply H.
  apply (fold_left_invariant
           (fun w' => Forall (settled md5 w') fs /\ objects w' = objects w));
    [|auto].
  intros a b Hb [Ha Hobj]. split.
  - eapply Forall_impl; [exact Ha|]. intros f. apply assetsUpload_settled_stays.
  - rewrite <- Hobj. apply assetsUpload_settled_objects.
    rewrite Forall_forall in Ha. apply Ha. now apply list_elem_of_In.
Qed.

Lemma assetsUpload_cache_backed (w : world) (v : vinyl) :
  cache_backed w -> cache_backed (assetsUpload md5 w v).
Proof.
  unfold cache_backed. intros Hw k.
  destruct (assetsUpload_cases w v)
    as [[_ ->]|[(Hs & -> & _ & ->)|(_ & _ & -> & _ & ->)]]; [apply Hw| |].
  - destruct (decide (s3_path v = k)) as [<-|E]; [auto|].
    rewrite lookup_insert_ne by assumption. apply Hw.
  - destruct (decide (s3_path v = k)) as [<-|E].
    + rewrite !lookup_insert_eq. eauto.
    + rewrite !lookup_insert_ne by assumption. apply Hw.
Qed.

(** C5: publish-assets never overwrites an existing remote object: every
    object of the bucket is still there, unchanged, after a run, and no
    request of the run wrote to its key; a second run of the task on the
    same local files leaves the bucket as the first run left it; and when
    the cache records only keys that hold an object, every file of the
    stream has its one object at its destination key after a run. *)
Theorem C5_assets_create_only (e : env) (w : world) :
  (forall k o, objects w !! k = Some o ->
     objects (snd (publish_assets gzip md5 e w)) !! k = Some o
     /\ List.filter (writes_to k) (calls (snd (publish_assets gzip md5 e w)))
        = List.filter (writes_to k) (calls w))
  /\ objects (snd (publish_assets gzip md5 e (snd (publish_assets gzip md5 e w))))
     = objects (snd (publish_assets gzip md5 e w))
  /\ (cache_backed w ->
      forall v, In v (assetsStream gzip e) ->
        is_Some (objects (snd (publish_assets gzip md5 e w)) !! s3_path v)).
Proof.
  unfold publish_assets; cbn [snd]. split; [|split].
  - intros k o. apply assets_run_keeps.
  - apply assets_rerun_objects, assets_run_settles.
  - intros Hw v Hv.
    pose proof (assets_run_settles (assetsStream gzip e) w) as Hall.
    rewrite Forall_forall in Hall.
    destruct (Hall v (proj2 (list_elem_of_In _ _) Hv)) as [H|H]; [exact H|].
    assert (Hb : cache_backed (fold_left (assetsUpload md5) (assetsStream gzip e) w)).
    { apply (fold_left_invariant cache_backed); [|exact Hw].
      intros a b _. apply assetsUpload_cache_backed. }
    apply Hb. rewrite H. eauto.
Qed.

(** *** The story stream, its upload and the sync *)

Lemma storyUpload_cases (w : world) (v : vinyl) :
  (objects (storyUpload md5 w v) = objects w
   /\ forall k, List.filter (writes_to k) (calls (storyUpload md5 w v))
                = List.filter (writes_to k) (calls w))
  \/ (objects (storyUpload md5 w v) = <[s3_path v := s3_params v]> (objects w)
      /\ calls (storyUpload md5 w v) =
           calls w ++ [HeadObject (s3_path v); PutObject (s3_path v) (s3_params v)]
      /\ forall o, objects w !! s3_path v = Some o ->
                   md5 (body o) <> md5 (contents v)).
Proof.
  unfold storyUpload, publish, storyOptions, SIM. cbn [simulate createOnly orb].
  case_bool_decide as Hc; [left; auto|].
  destruct (objects w !! s3_path v) as [o|] eqn:Ho; simpl.
  - case_bool_decide as He; simpl.
    + left. split; [reflexivity|]. intros k. now apply filter_writes_snoc.
    + right. rewrite <- app_assoc. repeat split. now intros o' [= <-].
  - right. rewrite <- app_assoc. repeat split. discriminate.
Qed.

(** An object whose ETag is that of every local file with its key goes
    through the upload untouched. *)
Lemma story_run_untouched (fs : list vinyl) (k : string) (o : s3object) (w : world) :
  (forall g, In g fs -> s3_path g = k -> md5 (contents g) = md5 (body o)) ->
  objects w !! k = Some o ->
  objects (fold_left (storyUpload md5) fs w) !! k = Some o
  /\ List.filter (writes_to k) (calls (fold_left (storyUpload md5) fs w))
     = List.filter (writes_to k) (calls w).
Proof.
  intros Hsame Hk.
  apply (fold_left_invariant
           (fun w' => objects w' !! k = Some o
                      /\ List.filter (writes_to k) (calls w')
                         = List.filter (writes_to k) (calls w))); [|auto].
  intros a b Hb [Ha Hc].
  destruct (storyUpload_cases a b) as [[-> Hw] | (-> & -> & Hdiff)].
  - split; [assumption | now rewrite Hw].
  - destruct (decide (s3_path b = k)) as [E|E].
    + exfalso. subst k. apply (Hdiff o Ha). symmetry. now apply Hsame.
    + split; [now rewrite lookup_insert_ne|].
      rewrite <- Hc. apply filter_writes_snoc. cbn [List.filter writes_to].
      change (String.eqb k (s3_path b))
        with (writes_to k (PutObject (s3_path b) (s3_params b))).
      now rewrite writes_to_other.
Qed.

Lemma sync_lookup (prefix : string) (keys : list string) (w : world) (k : string) :
  objects (sync prefix keys w) !! k =
  if stale prefix keys k then None else objects w !! k.
Proof.
  unfold sync; simpl. destruct (stale prefix keys k) eqn:Hs.
  - apply map_lookup_filter_None. right. intros x _. simpl. congruence.
  - destruct (objects w !! k) as [o|] eqn:Ho.
    + apply map_lookup_filter_Some. split; [assumption | exact Hs].
    + apply map_lookup_filter_None. now left.
Qed.

Lemma sync_calls (prefix : string) (keys : list string) (w : world) :
  In (ListObjects prefix) (calls (sync prefix keys w)).
Proof. unfold sync; simpl. apply in_or_app. right. now left. Qed.

Lemma sync_writes (prefix : string) (keys : list string) (w : world) (k : string) :
  stale prefix keys k = false ->
  List.filter (writes_to k) (calls (sync prefix keys w))
  = List.filter (writes_to k) (calls w).
Proof.
  intros Hs. unfold sync; cbn [calls]. apply filter_writes_snoc.
  cbn [List.filter writes_to].
  destruct (List.filter (stale prefix keys) (map fst (map_to_list (objects w))))
    as [|d ds] eqn:Hd; [reflexivity|].
  cbn [List.filter writes_to].
  destruct (existsb (String.eqb k) (d :: ds)) eqn:Hex; [|reflexivity].
  exfalso. apply existsb_eqb_In in Hex. rewrite <- Hd in Hex.
  apply List.filter_In in Hex as [_ Hex]. congruence.
Qed.

Lemma publish_story_confirmed (e : env) (w : world) :
  preflight e = Return tt -> answer e = true ->
  publish_story md5 e w =
  (Finished (publishedStoryMsg (awsStoryConfig e) (config e)),
   sync (storySyncPrefix (config e)) (map s3_path (storyStream e))
        (fold_left (storyUpload md5) (storyStream e) w)).
Proof.
  intros Hp Ha. unfold publish_story, prompt_confirm, storyStream.
  now rewrite Hp, Ha.
Qed.

(** C6 (as amended): when the checks pass and the operator confirms, the
    story publish leaves no object under the sync prefix whose key is not
    the key of a file of the stream, and an object whose body is the
    contents of the streamed file with its key is the same object
    afterwards, with no request that writes to its key or deletes it
    (streamed files having distinct keys).  The stream holds the local
    files that the globs reach and whose extension is none of [.ai],
    [.html] and [.jsx]: the remote objects of the other local files are
    among those the first part removes. *)
Theorem C6_story_sync_mirrors (e : env) (w : world) :
  preflight e = Return tt -> answer e = true ->
  (forall k,
     String.prefix (storySyncPrefix (config e)) k = true ->
     ~ In k (map s3_path (storyStream e)) ->
     objects (snd (publish_story md5 e w)) !! k = None)
  /\ (List.NoDup (map s3_path (storyStream e)) ->
      forall v o,
        In v (storyStream e) ->
        objects w !! s3_path v = Some o ->
        body o = contents v ->
        objects (snd (publish_story md5 e w)) !! s3_path v = Some o
        /\ List.filter (writes_to (s3_path v)) (calls (snd (publish_story md5 e w)))
           = List.filter (writes_to (s3_path v)) (calls w))
  /\ (forall v,
        In v (storyStream e) <->
        exists f, In f (www e) /\ visible f = true
                  /\ ext_in [".ai"; ".html"; ".jsx"] (ext f) = false
                  /\ v = storyRename (config e) (read f)).
Proof.
  intros Hp Ha. rewrite (publish_story_confirmed e w Hp Ha). cbn [snd].
  split; [|split].
  - intros k Hk Hnot. rewrite sync_lookup. unfold stale. rewrite Hk. simpl.
    destruct (existsb _ _) eqn:Hex; [|reflexivity].
    apply existsb_eqb_In in Hex. contradiction.
  - intros Hnd v o Hv Ho Hbody.
    assert (Hst : stale (storySyncPrefix (config e))
                    (map s3_path (storyStream e)) (s3_path v) = false).
    { unfold stale.
      assert (Hin : existsb (String.eqb (s3_path v))
                      (map s3_path (storyStream e)) = true)
        by (apply existsb_eqb_In; now apply in_map).
      now rewrite Hin, andb_false_r. }
    rewrite sync_lookup, Hst, (sync_writes _ _ _ _ Hst).
    apply story_run_untouched; [|assumption].
    intros g Hg E.
    rewrite (NoDup_map_inj s3_path (storyStream e) g v Hnd Hg Hv E).
    now rewrite Hbody.
  - intros v. unfold storyStream, storySrc. rewrite in_map_iff. split.
    + intros (v0 & <- & Hv0). apply in_map_iff in Hv0 as (f & <- & Hf).
      apply List.filter_In in Hf as [Hf Hc].
      apply andb_true_iff in Hc as [Hvis Hext]. apply negb_true_iff in Hext.
      exists f. auto.
    + intros (f & Hf & Hvis & Hext & ->). exists (read f). split; [reflexivity|].
      apply in_map. apply List.filter_In. split; [assumption|].
      now rewrite Hvis, Hext.
Qed.

(** *** Pre-flight checks and the confirmation gate *)

Lemma cleanStaging_dirty (d : bool) :
  cleanStaging d = if d then Throw DirtyWorkspace else Return tt.
Proof. now destruct d. Qed.

(** C3: when the working tree has uncommitted changes the story publish
    throws the dirty-workspace error, and when the tree is clean but the
    date validator rejects the configuration it throws the validator's
    error; either way the bucket is as it was and no request has been sent
    to it. *)
Theorem C3_preflight_failure_aborts (e : env) (w : world) :
  (uncommitted e = true ->
     publish_story md5 e w = (Threw DirtyWorkspace, w))
  /\ (uncommitted e = false ->
      forall err, checkProjectInitDate (config e) = Throw err ->
        publish_story md5 e w = (Threw err, w)).
Proof.
  unfold publish_story, preflight. rewrite cleanStaging_dirty. split.
  - now intros ->.
  - intros -> err Herr. simpl. now rewrite Herr.
Qed.

(** C4: when the operator declines the prompt, the story publish sends
    nothing: the bucket, the list of requests and the cache are what they
    were, and if the checks passed the stream stalls at the prompt. *)
Theorem C4_declined_prompt_no_remote_write (e : env) (w : world) :
  answer e = false ->
  snd (publish_story md5 e w) = w
  /\ (preflight e = Return tt -> fst (publish_story md5 e w) = Stalled).
Proof.
  intros Ha. unfold publish_story, prompt_confirm. rewrite Ha.
  destruct (preflight e) as [[]|err]; simpl; split; auto; discriminate.
Qed.

(** *** The publish path *)

(** C7 (as amended): the publish target [objectsLocation] is the string
    [/machinist/dist/<year>/<month>/<slug>/]; in the story publish it is
    prepended to the directory of every file of the stream.  The prefix
    given to the sync is a second string built from the same year, month
    and slug, [machinist/dist/<year>/<month>/<slug>]: it is
    [objectsLocation] without its leading and its trailing slash. *)
Theorem C7_publish_path_and_sync_prefix :
  (forall config,
     objectsLocation config =
     "/machinist/dist" +:+ "/" +:+ Js.ToString (year (projectInitDate config))
       +:+ "/" +:+ Js.ToString (month (projectInitDate config))
       +:+ "/" +:+ convertedProjectName (projectName config) +:+ "/")
  /\ (forall config,
        objectsLocation config = "/" +:+ storySyncPrefix config +:+ "/")
  /\ (forall e v,
        In v (storyStream e) <->
        exists v0, In v0 (storySrc e)
                   /\ v = rename (fun d => objectsLocation (config e) +:+ d) v0)
  /\ (forall e w,
        preflight e = Return tt -> answer e = true ->
        publish_story md5 e w =
        (Finished (publishedStoryMsg (awsStoryConfig e) (config e)),
         sync (storySyncPrefix (config e)) (map s3_path (storyStream e))
           (fold_left (storyUpload md5) (storyStream e) w))
        /\ In (ListObjects (storySyncPrefix (config e)))
              (calls (snd (publish_story md5 e w)))).
Proof.
  split; [|split; [|split]].
  - reflexivity.
  - intros config. unfold objectsLocation, storySyncPrefix.
    rewrite !append_assoc. reflexivity.
  - intros e v. unfold storyStream, storyRename. rewrite in_map_iff.
    split; intros (v0 & H1 & H2); exists v0; auto.
  - intros e w Hp Ha. rewrite (publish_story_confirmed e w Hp Ha).
    split; [reflexivity | apply sync_calls].
Qed.

(** *** Fresh keys *)

Lemma prefix_append (a b : string) : String.prefix a (a +:+ b) = true.
Proof.
  induction a as [|c a IH]; simpl; [now destruct b|].
  destruct (ascii_dec c c); [exact IH | congruence].
Qed.

Lemma assetsUpload_fresh (w : world) (v : vinyl) :
  objects w !! s3_path v = None -> cache w !! s3_path v = None ->
  objects (assetsUpload md5 w v) !! s3_path v = Some (s3_params v).
Proof.
  intros Ho Hc.
  destruct (assetsUpload_cases w v) as [[Hc' _]|[([o Hs] & _)|(_ & _ & -> & _)]];
    try congruence.
  apply lookup_insert_eq.
Qed.

End TaskFacts.

(** ** The tasks on the sample inputs *)

(** C3, witness: a dirty tree, and a clean tree with an unquoted year. *)
Lemma C3_preflight_failure_aborts_witness :
  publish_story sampleMd5 (withUncommitted true sampleEnv) sampleWorld
  = (Threw DirtyWorkspace, sampleWorld)
  /\ publish_story sampleMd5 (withConfig unquotedYear sampleEnv) sampleWorld
     = (Threw MalformedDate, sampleWorld).
Proof.
  split.
  - apply (proj1 (C3_preflight_failure_aborts sampleMd5
                    (withUncommitted true sampleEnv) sampleWorld)).
    reflexivity.
  - apply (proj2 (C3_preflight_failure_aborts sampleMd5
                    (withConfig unquotedYear sampleEnv) sampleWorld)).
    + reflexivity.
    + reflexivity.
Defined.

(** C4, witness: the operator answers no. *)
Lemma C4_declined_prompt_no_remote_write_witness :
  snd (publish_story sampleMd5 (withAnswer false sampleEnv) sampleWorld) = sampleWorld.
Proof.
  apply (proj1 (C4_declined_prompt_no_remote_write sampleMd5
                  (withAnswer false sampleEnv) sampleWorld eq_refl)).
Defined.

(** C5, witness: an object already at the key of [data.json] is kept. *)
Lemma C5_assets_create_only_witness :
  objects (snd (publish_assets sampleGzip sampleMd5 sampleEnv sampleAssetsWorld))
    !! "cdnassets/projects/2017/01/my-cool-story/data.json"
  = Some {| body := "first"; encoding := None |}.
Proof.
  apply (proj1 (C5_assets_create_only sampleGzip sampleMd5 sampleEnv
                  sampleAssetsWorld)).
  reflexivity.
Defined.

(** C6, witness: the stale script goes, the style sheet stays. *)
Lemma C6_story_sync_mirrors_witness :
  objects (snd (publish_story sampleMd5 sampleEnv sampleWorld))
    !! "machinist/dist/2017/01/my-cool-story/old.js" = None
  /\ objects (snd (publish_story sampleMd5 sampleEnv sampleWorld))
       !! "machinist/dist/2017/01/my-cool-story/styles/main.css"
     = Some {| body := "body{}"; encoding := None |}.
Proof.
  destruct (C6_story_sync_mirrors sampleMd5 sampleEnv sampleWorld eq_refl eq_refl)
    as (Hstale & Hkept & _).
  split.
  - apply Hstale; [reflexivity|].
    simpl. intros [H|[]]. discriminate H.
  - refine (proj1 (Hkept _ sampleCss _ _ _ _)).
    + repeat constructor; simpl; tauto.
    + left. reflexivity.
    + reflexivity.
    + reflexivity.
Defined.

(** C7, witness: the story stream of the sample project. *)
Lemma C7_publish_path_and_sync_prefix_witness :
  In (ListObjects "machinist/dist/2017/01/my-cool-story")
     (calls (snd (publish_story sampleMd5 sampleEnv sampleWorld))).
Proof.
  apply (proj2 (proj2 (proj2 (proj2 (C7_publish_path_and_sync_prefix sampleMd5)))
                  sampleEnv sampleWorld eq_refl eq_refl)).
Defined.

(** C7, counterexample: the publish path and the prefix handed to the sync
    are two different strings. *)
Lemma C7_sync_prefix_differs :
  objectsLocation quotedDate = "/machinist/dist/2017/01/my-cool-story/"
  /\ storySyncPrefix quotedDate = "machinist/dist/2017/01/my-cool-story"
  /\ objectsLocation quotedDate <> storySyncPrefix quotedDate.
Proof. repeat split. discriminate. Qed.

(** C6, counterexample: the page [index.html] is on disk and in the bucket
    with the same contents, and the publish deletes it from the bucket:
    the stream leaves [.html] files out, so the sync finds no local
    counterpart. *)
Lemma C6_excluded_page_deleted :
  In sampleIndex (www sampleEnv)
  /\ s3_path (storyRename (config sampleEnv) (read sampleIndex))
     = "machinist/dist/2017/01/my-cool-story/index.html"
  /\ objects samplePageWorld !! "machinist/dist/2017/01/my-cool-story/index.html"
     = Some {| body := bytes sampleIndex; encoding := None |}
  /\ preflight sampleEnv = Return tt /\ answer sampleEnv = true
  /\ objects (snd (publish_story sampleMd5 sampleEnv samplePageWorld))
       !! "machinist/dist/2017/01/my-cool-story/index.html" = None.
Proof. repeat split. left. reflexivity. Qed.

(** C8: for the project [.NET Story] the file [data.json] enters the stream
    of publish-assets with a text-like extension, and the task uploads it
    as it was read, without [Content-Encoding]: the slug [.net-story]
    starts with a dot and the glob of the gzip filter does not go through
    it.  For [My   Cool  Story] the same file is uploaded compressed and
    marked. *)
Theorem C8_dot_slug_uploaded_uncompressed :
  In sampleJson (cdnassets (withConfig dotNetConfig sampleEnv))
  /\ ext_in gzipExts (ext sampleJson) = true
  /\ In (assetsStage sampleGzip dotNetConfig (read sampleJson))
        (assetsStream sampleGzip (withConfig dotNetConfig sampleEnv))
  /\ objects (snd (publish_assets sampleGzip sampleMd5
                     (withConfig dotNetConfig sampleEnv) emptyWorld))
       !! "cdnassets/projects/2017/01/.net-story/data.json"
     = Some {| body := "{}"; encoding := None |}
  /\ objects (snd (publish_assets sampleGzip sampleMd5 sampleEnv emptyWorld))
       !! "cdnassets/projects/2017/01/my-cool-story/data.json"
     = Some {| body := sampleGzip "{}"; encoding := Some "gzip" |}.
Proof. repeat split; left; reflexivity. Qed.

(** ** The combined metadata *)

Lemma segments_from_cons (cur s : string) :
  exists x l, Path.segments_from cur s = x :: l.
Proof.
  revert cur; induction s as [|c s IH]; intros cur; simpl; [eauto|].
  destruct (Ascii.eqb c "/"); eauto.
Qed.

(** The last segment of [dir/file] is [file] when [file] has no slash. *)
Lemma last_segment (file : string) :
  Path.segments file = [file] ->
  forall dir cur,
    List.last (Path.segments_from cur (dir +:+ "/" +:+ file)) EmptyString = file.
Proof.
  intros Hfile dir. induction dir as [|c dir IH]; intros cur.
  - change (EmptyString +:+ "/" +:+ file) with (String "/" file).
    cbn [Path.segments_from Ascii.eqb Bool.eqb].
    fold (Path.segments file). rewrite Hfile. reflexivity.
  - change (String c dir +:+ "/" +:+ file) with (String c (dir +:+ "/" +:+ file)).
    cbn [Path.segments_from]. destruct (Ascii.eqb c "/"); [|apply IH].
    specialize (IH EmptyString).
    destruct (segments_from_cons EmptyString (dir +:+ "/" +:+ file)) as (x & l & E).
    rewrite E in IH |- *. exact IH.
Qed.

Lemma json_name_embed (d : string) : json_name (d +:+ "/embed.json") = "embed".
Proof.
  unfold json_name, Path.segments. now rewrite (last_segment "embed.json").
Qed.

Lemma json_name_main (d : string) : json_name (d +:+ "/styles/main.json") = "main".
Proof.
  unfold json_name, Path.segments.
  replace (d +:+ "/styles/main.json") with ((d +:+ "/styles") +:+ "/" +:+ "main.json")
    by now rewrite append_assoc.
  now rewrite (last_segment "main.json").
Qed.

(** C9: the metadata combiner writes one JSON object with the two keys
    [embed] and [styles], in that order, that hold the document of
    [embed.json] and the document of [styles/main.json]; on [{a:1}] and
    [{b:2}] the text is [{embed:{a:1},styles:{b:2}}], keys in double
    quotes. *)
Theorem C9_combine_json (config : config_t) :
  (forall e m se sm,
     Json.stringify e = Some se -> Json.stringify m = Some sm ->
     combineJson config e m =
     Some ("{" +:+ Json.quote "embed" +:+ ":" +:+ se +:+ ","
               +:+ Json.quote "styles" +:+ ":" +:+ sm +:+ "}"))
  /\ combineJson config (Json.Obj [("a", Json.Num 1)]) (Json.Obj [("b", Json.Num 2)])
     = Some (Json.requote "{'embed':{'a':1},'styles':{'b':2}}").
Proof.
  assert (Hgen : forall e m,
            combineJson config e m =
            Json.stringify (Json.Obj [("embed", e); ("styles", m)])).
  { intros e m. unfold combineJson, jsoncombine, combineConverter.
    cbn [fold_left fst snd]. rewrite json_name_embed, json_name_main.
    reflexivity. }
  split; [|now rewrite Hgen].
  intros e m se sm He Hm. rewrite Hgen.
  cbn [Json.stringify]. rewrite He, Hm. cbn [Json.commas].
  now rewrite !append_assoc.
Qed.

(** C9, witness: a string and an array as the two documents. *)
Lemma C9_combine_json_witness :
  combineJson quotedDate (Json.Str "x") (Json.Arr [Json.Null; Json.Bool true])
  = Some (Json.requote "{'embed':'x','styles':[null,true]}").
Proof.
  apply (proj1 (C9_combine_json quotedDate)
           (Json.Str "x") (Json.Arr [Json.Null; Json.Bool true])
           _ _ eq_refl eq_refl).
Defined.

(** * Further properties of the gulpfile *)

(** ** The slug *)

Module SlugMore.
Import JsString.

Lemma lower_char_idem (c : ascii) : lower_char (lower_char c) = lower_char c.
Proof. destruct c as [[] [] [] [] [] [] [] []]; reflexivity. Qed.

Lemma toLowerCase_idem (s : string) : toLowerCase (toLowerCase s) = toLowerCase s.
Proof.
  induction s as [|c s IH]; simpl; [reflexivity|].
  now rewrite lower_char_idem, IH.
Qed.

Lemma replace_all_spaces (s : string) :
  all_spaces s = true -> replace_spaces_from true s = EmptyString.
Proof.
  induction s as [|c s IH]; simpl; [reflexivity|].
  intros H. apply andb_true_iff in H as [-> Hs]. now apply IH.
Qed.

Lemma last_char_lower (s : string) :
  last_char (toLowerCase s) = option_map lower_char (last_char s).
Proof.
  induction s as [|c s IH]; [reflexivity|].
  destruct s as [|d s]; [reflexivity|]. exact IH.
Qed.

Lemma last_char_cons (c : ascii) (t : string) :
  last_char (String c t) =
  match last_char t with None => Some c | Some x => Some x end.
Proof.
  destruct t as [|d t]; [reflexivity|].
  change (last_char (String c (String d t))) with (last_char (String d t)).
  assert (H : exists x, last_char (String d t) = Some x).
  { clear c. revert d. induction t as [|e t IH]; intros d; [simpl; eauto|].
    change (last_char (String d (String e t))) with (last_char (String e t)).
    apply IH. }
  destruct H as [x ->]. reflexivity.
Qed.

Lemma last_char_replace (s : string) :
  forall f, ends_with_space s = true ->
  last_char (replace_spaces_from f s) =
  if f && all_spaces s then None else Some "-"%char.
Proof.
  induction s as [|c s IH]; intros f H; [discriminate|].
  cbn [replace_spaces_from all_spaces].
  destruct s as [|d s].
  - simpl in H. rewrite H. destruct f; reflexivity.
  - change (ends_with_space (String d s) = true) in H.
    destruct (is_space c) eqn:Hc.
    + destruct f.
      * now rewrite (IH true H).
      * rewrite last_char_cons, (IH true H). cbn [andb].
        now destruct (all_spaces (String d s)).
    + rewrite last_char_cons, (IH false H), andb_false_r. reflexivity.
Qed.

End SlugMore.

(** X1: the slug is a fixed point of the normalisation and of each of its
    two steps: normalising a slug again, lower-casing it or replacing its
    white space changes nothing. *)
Theorem X1_slug_fixed_point (s : string) :
  convertedProjectName (convertedProjectName s) = convertedProjectName s
  /\ JsString.toLowerCase (convertedProjectName s) = convertedProjectName s
  /\ JsString.replace_spaces (convertedProjectName s) = convertedProjectName s.
Proof.
  assert (Hsp : JsString.has_space (convertedProjectName s) = false).
  { unfold convertedProjectName. rewrite SlugFacts.has_space_toLowerCase.
    apply SlugFacts.has_space_replace. }
  assert (Hlow : JsString.toLowerCase (convertedProjectName s) = convertedProjectName s).
  { unfold convertedProjectName. apply SlugMore.toLowerCase_idem. }
  assert (Hrep : JsString.replace_spaces (convertedProjectName s) = convertedProjectName s).
  { unfold JsString.replace_spaces. now apply SlugFacts.replace_no_space. }
  repeat split; try assumption.
  unfold convertedProjectName at 1. now rewrite Hrep.
Qed.

(** X3: the edges of a name are not trimmed: a name that is nothing but
    white space gives the slug [-], a name that starts with white space
    gives a slug that starts with a hyphen, and a name that ends with white
    space gives a slug that ends with a hyphen. *)
Theorem X3_slug_edges :
  (forall s, s <> EmptyString -> JsString.all_spaces s = true ->
     convertedProjectName s = "-")
  /\ (forall s, JsString.starts_with_space s = true ->
        exists t, convertedProjectName s = String "-" t)
  /\ (forall s, JsString.ends_with_space s = true ->
        last_char (convertedProjectName s) = Some "-"%char).
Proof.
  unfold convertedProjectName, JsString.replace_spaces. split; [|split].
  - intros s Hne Ha.
    rewrite <- (append_empty_r s).
    now rewrite (SlugFacts.replace_run false s EmptyString Hne Ha).
  - intros [|c s]; [discriminate|]. simpl. intros ->. simpl. eauto.
  - intros s H. rewrite SlugMore.last_char_lower.
    now rewrite (SlugMore.last_char_replace s false H).
Qed.

(** X3, witness: a blank name, and a name with white space at both ends. *)
Lemma X3_slug_edges_witness :
  convertedProjectName "   " = "-"
  /\ last_char (convertedProjectName " a ") = Some "-"%char.
Proof.
  split.
  - apply (proj1 X3_slug_edges); [discriminate | reflexivity].
  - apply (proj2 (proj2 X3_slug_edges)). reflexivity.
Defined.

(** ** The date validator on every configuration *)

Lemma accepted_date (config : config_t) :
  checkProjectInitDate config = Return tt ->
  exists y m,
    year (projectInitDate config) = Js.Str y
    /\ month (projectInitDate config) = Js.Str m
    /\ valid_year y /\ valid_month m.
Proof.
  intros H.
  destruct (first_check_passed config) as (y & m & Hy & Hm & My & Mm);
    [congruence|].
  exists y, m. repeat split; try assumption;
    [now apply reYear_valid | now apply reMonth_valid].
Qed.

Lemma slug_has_no_space (s : string) :
  JsString.has_space (convertedProjectName s) = false.
Proof.
  unfold convertedProjectName. rewrite SlugFacts.has_space_toLowerCase.
  apply SlugFacts.has_space_replace.
Qed.

(** X4: over all configurations, whatever the YAML holds, the validator
    returns exactly when the year and the month are both strings, the year
    four digits of which the first is 1 or 2, the month one of 01 to 12; in
    every other case the error it throws is the malformed-date one. *)
Theorem X4_validator_characterised (config : config_t) :
  (checkProjectInitDate config = Return tt <->
     exists y m,
       year (projectInitDate config) = Js.Str y
       /\ month (projectInitDate config) = Js.Str m
       /\ valid_year y /\ valid_month m)
  /\ (checkProjectInitDate config = Return tt
      \/ checkProjectInitDate config = Throw MalformedDate).
Proof.
  split.
  - split.
    + apply accepted_date.
    + intros (y & m & Hy & Hm & Vy & Vm).
      rewrite (checkProjectInitDate_strings config y m Hy Hm).
      apply reYear_valid in Vy. apply reMonth_valid in Vm. now rewrite Vy, Vm.
  - destruct (checkProjectInitDate config) as [[]|[]] eqn:E; auto; exfalso.
    + destruct (first_check_passed config) as (y & m & Hy & Hm & My & Mm);
        [congruence|].
      rewrite (checkProjectInitDate_strings config y m Hy Hm), My, Mm in E.
      discriminate.
    + destruct (first_check_passed config) as (y & m & Hy & Hm & My & Mm);
        [congruence|].
      rewrite (checkProjectInitDate_strings config y m Hy Hm), My, Mm in E.
      discriminate.
Qed.

Lemma has_space_app (a b : string) :
  JsString.has_space (a +:+ b) = JsString.has_space a || JsString.has_space b.
Proof.
  induction a as [|c a IH]; simpl; [reflexivity|].
  now rewrite IH, orb_assoc.
Qed.

Lemma length_app (a b : string) :
  String.length (a +:+ b) = (String.length a + String.length b)%nat.
Proof. induction a as [|c a IH]; simpl; [reflexivity | now rewrite IH]. Qed.

Lemma digit_facts (c : ascii) :
  is_digit c = true -> JsString.is_space c = false /\ Ascii.eqb c "/" = false.
Proof. destruct c as [[] [] [] [] [] [] [] []]; simpl; intros H; auto; discriminate H. Qed.

Lemma valid_year_facts (y : string) :
  valid_year y ->
  JsString.has_space y = false /\ String.length y = 4%nat
  /\ no_slash y = true /\ Path.trivial y = false.
Proof.
  intros (c1 & c2 & c3 & c4 & -> & H1 & H2 & H3 & H4).
  apply digit_facts in H2 as [S2 L2], H3 as [S3 L3], H4 as [S4 L4].
  cbn [JsString.has_space no_slash String.length].
  rewrite S2, S3, S4, L2, L3, L4.
  destruct H1 as [-> | ->]; repeat split; reflexivity.
Qed.

Lemma valid_month_facts (m : string) :
  valid_month m ->
  JsString.has_space m = false /\ String.length m = 2%nat
  /\ no_slash m = true /\ Path.trivial m = false.
Proof.
  unfold valid_month. simpl.
  intros H. repeat (destruct H as [<- | H]; [repeat split; reflexivity|]).
  destruct H.
Qed.

(** X5: once the validator has accepted the configuration, the publish
    path holds no white space, and it is 25 characters longer than the
    slug: the fixed parts, four digits and two digits. *)
Theorem X5_validated_publish_path (config : config_t) :
  checkProjectInitDate config = Return tt ->
  JsString.has_space (objectsLocation config) = false
  /\ String.length (objectsLocation config)
     = (25 + String.length (convertedProjectName (projectName config)))%nat.
Proof.
  intros H. apply accepted_date in H.
  destruct H as (y & m & Hy & Hm & Vy & Vm).
  apply valid_year_facts in Vy as (Sy & Ly & _).
  apply valid_month_facts in Vm as (Sm & Lm & _).
  unfold objectsLocation, yearString, monthString. rewrite Hy, Hm.
  cbn [Js.ToString]. split.
  - rewrite !has_space_app, Sy, Sm.
    now rewrite slug_has_no_space.
  - rewrite !length_app, Ly, Lm. simpl. now rewrite Nat.add_1_r.
Qed.

(** X5, witness: the sample project. *)
Lemma X5_validated_publish_path_witness :
  JsString.has_space (objectsLocation quotedDate) = false
  /\ String.length (objectsLocation quotedDate)
     = (25 + String.length (convertedProjectName (projectName quotedDate)))%nat.
Proof. apply (X5_validated_publish_path quotedDate). reflexivity. Defined.

(** ** Keys and prefixes *)

Module PathFacts.
Import Path.

(** A segment without a slash, followed by a slash, is read as one
    segment. *)
Lemma segments_from_segment (a : string) :
  no_slash a = true ->
  forall cur rest,
    segments_from cur (a +:+ "/" +:+ rest) = (cur +:+ a) :: segments rest.
Proof.
  induction a as [|c a IH]; intros Ha cur rest.
  - rewrite append_empty_r. reflexivity.
  - simpl in Ha. apply andb_true_iff in Ha as [Hc Ha].
    apply negb_true_iff in Hc.
    change (String c a +:+ "/" +:+ rest) with (String c (a +:+ "/" +:+ rest)).
    cbn [segments_from]. rewrite Hc, (IH Ha).
    now rewrite append_assoc.
Qed.

Lemma segments_segment (a rest : string) :
  no_slash a = true -> segments (a +:+ "/" +:+ rest) = a :: segments rest.
Proof. intros Ha. unfold segments at 1. now rewrite (segments_from_segment a Ha). Qed.

Lemma no_slash_snoc (cur : string) (c : ascii) :
  no_slash cur = true -> Ascii.eqb c "/" = false ->
  no_slash (cur +:+ String c EmptyString) = true.
Proof.
  intros Hcur Hc. induction cur as [|d cur IH]; simpl in *.
  - now rewrite Hc.
  - apply andb_true_iff in Hcur as [Hd Hcur]. now rewrite Hd, IH.
Qed.

(** No segment holds a slash. *)
Lemma segments_from_no_slash (s : string) :
  forall cur, no_slash cur = true ->
    List.Forall (fun seg => no_slash seg = true) (segments_from cur s).
Proof.
  induction s as [|c s IH]; intros cur Hcur; cbn [segments_from].
  - now constructor.
  - destruct (Ascii.eqb c "/") eqn:Hc.
    + constructor; [assumption | now apply IH].
    + apply IH. now apply no_slash_snoc.
Qed.

Lemma join_cons (x : string) (l : list string) :
  join (x :: l) = x +:+ match l with [] => EmptyString | _ => "/" +:+ join l end.
Proof. destruct l; simpl; [now rewrite append_empty_r | reflexivity]. Qed.

Lemma step_plain (stack : list string) (seg : string) :
  trivial seg = false -> String.eqb seg ".." = false -> step stack seg = seg :: stack.
Proof. intros Ht Hd. unfold step. now rewrite Ht, Hd. Qed.

(** Without [..] among them, the segments that are kept are those that are
    neither empty nor [.]. *)
Lemma fold_step_plain (segs : list string) :
  List.Forall (fun seg => String.eqb seg ".." = false) segs ->
  forall stack,
    fold_left step segs stack
    = rev (List.filter (fun seg => negb (trivial seg)) segs) ++ stack.
Proof.
  induction 1 as [|seg segs Hseg _ IH]; intros stack; [reflexivity|].
  cbn [fold_left List.filter]. rewrite IH.
  destruct (trivial seg) eqn:Ht; cbn [negb].
  - unfold step. now rewrite Ht.
  - rewrite (step_plain stack seg Ht Hseg). cbn [rev].
    now rewrite <- app_assoc.
Qed.

Lemma resolve_under (pre local stack : list string) :
  fold_left step pre [] = stack ->
  List.Forall (fun seg => String.eqb seg ".." = false) local ->
  resolve (pre ++ local)
  = rev stack ++ List.filter (fun seg => negb (trivial seg)) local.
Proof.
  intros Hpre Hlocal. unfold resolve.
  rewrite fold_left_app, Hpre, (fold_step_plain local Hlocal).
  now rewrite rev_app_distr, rev_involutive.
Qed.

(** The segments of a path renamed under [/a/b/y/m/slug/]: [a/b/y/m/slug]
    and then those of the local path, or, when the slug is [..], what is
    left once it took back the month. *)
Lemma resolve_renamed (a b y m slug local : string) :
  plain a = true -> plain b = true -> plain y = true -> plain m = true ->
  no_slash slug = true -> trivial slug = false ->
  List.Forall (fun seg => String.eqb seg ".." = false) (segments local) ->
  resolve (segments ("/" +:+ a +:+ "/" +:+ b +:+ "/" +:+ y +:+ "/" +:+ m
                       +:+ "/" +:+ slug +:+ "/" +:+ local))
  = (if String.eqb slug ".." then [a; b; y] else [a; b; y; m; slug])
      ++ List.filter (fun seg => negb (trivial seg)) (segments local).
Proof.
  unfold plain. intros Ha Hb Hy Hm Ns Ts Hlocal.
  apply andb_true_iff in Ha as [Ha Da]. apply andb_true_iff in Ha as [Na Ta].
  apply andb_true_iff in Hb as [Hb Db]. apply andb_true_iff in Hb as [Nb Tb].
  apply andb_true_iff in Hy as [Hy Dy]. apply andb_true_iff in Hy as [Ny Ty].
  apply andb_true_iff in Hm as [Hm Dm]. apply andb_true_iff in Hm as [Nm Tm].
  apply negb_true_iff in Ta, Tb, Ty, Tm, Da, Db, Dy, Dm.
  change (segments ("/" +:+ a +:+ "/" +:+ b +:+ "/" +:+ y +:+ "/" +:+ m
                      +:+ "/" +:+ slug +:+ "/" +:+ local))
    with (EmptyString :: segments (a +:+ "/" +:+ b +:+ "/" +:+ y +:+ "/" +:+ m
                                     +:+ "/" +:+ slug +:+ "/" +:+ local)).
  rewrite (segments_segment a _ Na), (segments_segment b _ Nb),
          (segments_segment y _ Ny), (segments_segment m _ Nm),
          (segments_segment slug _ Ns).
  change (EmptyString :: a :: b :: y :: m :: slug :: segments local)
    with ([EmptyString; a; b; y; m; slug] ++ segments local).
  rewrite (resolve_under _ _
             (if String.eqb slug ".." then [y; b; a] else [slug; m; y; b; a]));
    [now destruct (String.eqb slug "..")| |assumption].
  cbn [fold_left]. change (step [] EmptyString) with (@nil string).
  rewrite (step_plain _ a Ta Da), (step_plain _ b Tb Db),
          (step_plain _ y Ty Dy), (step_plain _ m Tm Dm).
  unfold step. rewrite Ts, Dm.
  now destruct (String.eqb slug "..").
Qed.


End PathFacts.

(** What the globs let through has no [..] among its segments, and its
    segments that count are plain names that start with no dot. *)
Lemma visible_segments (f : localFile) :
  visible f = true ->
  List.Forall (fun seg => String.eqb seg ".." = false)
              (Path.segments (dir f +:+ "/" +:+ name f +:+ ext f))
  /\ List.Forall (fun seg => no_slash seg = true /\ Path.dot_leading seg = false
                           /\ seg <> EmptyString)
       (List.filter (fun seg => negb (Path.trivial seg))
                    (Path.segments (dir f +:+ "/" +:+ name f +:+ ext f))).
Proof.
  unfold visible. intros Hv. rewrite forallb_forall in Hv.
  pose proof (PathFacts.segments_from_no_slash
                (dir f +:+ "/" +:+ name f +:+ ext f) EmptyString eq_refl) as Hns.
  rewrite List.Forall_forall in Hns.
  split; apply List.Forall_forall; intros seg Hseg.
  - specialize (Hv seg Hseg). apply negb_true_iff in Hv.
    destruct (String.eqb_spec seg ".."); [subst; discriminate | reflexivity].
  - apply List.filter_In in Hseg as [Hseg Ht]. apply negb_true_iff in Ht.
    specialize (Hv seg Hseg). apply negb_true_iff in Hv.
    split; [now apply Hns|]. split.
    + unfold hidden in Hv. apply andb_false_iff in Hv as [Hv|Hv]; [exact Hv|].
      apply negb_false_iff, String.eqb_eq in Hv. subst. discriminate.
    + intros ->. discriminate.
Qed.

Lemma valid_date_plain (y m : string) :
  valid_year y -> valid_month m ->
  plain y = true /\ plain m = true
  /\ Path.dot_leading y = false /\ Path.dot_leading m = false.
Proof.
  intros Vy Vm. split; [|split; [|split]].
  - destruct Vy as (c1 & c2 & c3 & c4 & -> & H1 & H2 & H3 & H4).
    apply digit_facts in H2 as [_ L2], H3 as [_ L3], H4 as [_ L4].
    unfold plain. cbn [no_slash]. rewrite L2, L3, L4.
    destruct H1 as [-> | ->]; reflexivity.
  - unfold valid_month in Vm. simpl in Vm.
    repeat (destruct Vm as [<- | Vm]; [reflexivity|]). destruct Vm.
  - destruct Vy as (c1 & c2 & c3 & c4 & -> & [-> | ->] & _); reflexivity.
  - unfold valid_month in Vm. simpl in Vm.
    repeat (destruct Vm as [<- | Vm]; [reflexivity|]). destruct Vm.
Qed.


Lemma preflight_passed (e : env) :
  preflight e = Return tt -> checkProjectInitDate (config e) = Return tt.
Proof.
  unfold preflight. rewrite cleanStaging_dirty.
  destruct (uncommitted e); simpl; [discriminate | auto].
Qed.

(** The segments of the key of a file of the story stream, for a
    validated date and a slug without a slash that is neither empty nor
    [.]. *)
Lemma story_stream_segments (e : env) (v : vinyl) :
  checkProjectInitDate (config e) = Return tt ->
  no_slash (convertedProjectName (projectName (config e))) = true ->
  Path.trivial (convertedProjectName (projectName (config e))) = false ->
  In v (storyStream e) ->
  exists y m l,
    year (projectInitDate (config e)) = Js.Str y
    /\ month (projectInitDate (config e)) = Js.Str m
    /\ valid_year y /\ valid_month m
    /\ List.Forall (fun seg => no_slash seg = true /\ Path.dot_leading seg = false
                              /\ seg <> EmptyString) l
    /\ s3_path v
       = Path.join
           ((if String.eqb (convertedProjectName (projectName (config e))) ".."
             then ["machinist"; "dist"; y]
             else ["machinist"; "dist"; y; m;
                   convertedProjectName (projectName (config e))]) ++ l).
Proof.
  intros Hd Hs Ts Hv. apply accepted_date in Hd as (y & m & Hy & Hm & Vy & Vm).
  destruct (valid_date_plain y m Vy Vm) as (Py & Pm & _).
  unfold storyStream, storySrc in Hv.
  apply in_map_iff in Hv as (v0 & <- & Hv0).
  apply in_map_iff in Hv0 as (f & <- & Hf).
  apply List.filter_In in Hf as [_ Hf]. apply andb_true_iff in Hf as [Hvis _].
  destruct (visible_segments f Hvis) as [Hdd Hgood].
  exists y, m, (List.filter (fun seg => negb (Path.trivial seg))
                  (Path.segments (dir f +:+ "/" +:+ name f +:+ ext f))).
  repeat split; try assumption.
  unfold s3_path, relative, Path.normalize, storyRename, rename, read,
    objectsLocation, yearString, monthString.
  cbn [dirname basename extname]. rewrite Hy, Hm. cbn [Js.ToString].
  rewrite !append_assoc. f_equal.
  apply (PathFacts.resolve_renamed "machinist" "dist" y m _ _
           eq_refl eq_refl Py Pm Hs Ts Hdd).
Qed.

(** When the slug is not [..] either, the key is the sync prefix, alone or
    followed by a slash and the rest of the path. *)
Lemma story_stream_key (e : env) (v : vinyl) :
  checkProjectInitDate (config e) = Return tt ->
  no_slash (convertedProjectName (projectName (config e))) = true ->
  Path.trivial (convertedProjectName (projectName (config e))) = false ->
  convertedProjectName (projectName (config e)) <> ".." ->
  In v (storyStream e) ->
  exists tail,
    s3_path v = storySyncPrefix (config e) +:+ tail
    /\ (tail = EmptyString \/ exists r, tail = String "/" r).
Proof.
  intros Hd Hs Ts Hdd Hv.
  destruct (story_stream_segments e v Hd Hs Ts Hv)
    as (y & m & l & Hy & Hm & _ & _ & _ & Hkey).
  apply String.eqb_neq in Hdd. rewrite Hdd in Hkey.
  exists (match l with [] => EmptyString | _ => "/" +:+ Path.join l end).
  split; [|destruct l; [left; reflexivity | right; eauto]].
  rewrite Hkey. unfold storySyncPrefix, yearString, monthString.
  rewrite Hy, Hm. cbn [Js.ToString app].
  rewrite !PathFacts.join_cons, !append_assoc.
  destruct l; [|reflexivity]. cbn [app]. now rewrite !append_empty_r.
Qed.

Section MoreTaskFacts.

Variable gzip : string -> string.
Variable md5 : string -> string.

(** X6: when the validator has accepted the date and the slug is one plain
    path segment (no slash, not empty, not [.] and not [..]), the key of
    every file of the story stream extends the prefix that the sync is
    given; the objects the task uploads are among those it mirrors. *)
Theorem X6_story_keys_under_sync_prefix (e : env) (v : vinyl) :
  checkProjectInitDate (config e) = Return tt ->
  no_slash (convertedProjectName (projectName (config e))) = true ->
  Path.trivial (convertedProjectName (projectName (config e))) = false ->
  convertedProjectName (projectName (config e)) <> ".." ->
  In v (storyStream e) ->
  String.prefix (storySyncPrefix (config e)) (s3_path v) = true.
Proof.
  intros Hd Hs Ts Hdd Hv.
  destruct (story_stream_key e v Hd Hs Ts Hdd Hv) as (tail & -> & _).
  apply prefix_append.
Qed.


(** The segments of the key of a file of publish-assets, for a validated
    date and a slug of one plain segment. *)
Lemma assets_file_segments (e : env) (f : localFile) :
  checkProjectInitDate (config e) = Return tt ->
  plain (convertedProjectName (projectName (config e))) = true ->
  visible f = true ->
  exists y m,
    valid_year y /\ valid_month m
    /\ relative_segments (rename (assetsDirname (config e)) (read f))
       = ["cdnassets"; "projects"; y; m;
          convertedProjectName (projectName (config e))]
           ++ List.filter (fun seg => negb (Path.trivial seg))
                (Path.segments (dir f +:+ "/" +:+ name f +:+ ext f)).
Proof.
  intros Hd Hp Hvis. apply accepted_date in Hd as (y & m & Hy & Hm & Vy & Vm).
  destruct (valid_date_plain y m Vy Vm) as (Py & Pm & _).
  destruct (visible_segments f Hvis) as [Hdd _].
  exists y, m. repeat split; try assumption.
  unfold relative_segments, rename, read, assetsDirname, yearString, monthString.
  cbn [dirname basename extname]. rewrite Hy, Hm. cbn [Js.ToString].
  rewrite !append_assoc.
  pose proof Hp as Hp'. unfold plain in Hp'.
  apply andb_true_iff in Hp' as [Hp' Dd]. apply andb_true_iff in Hp' as [Ns Ts].
  apply negb_true_iff in Ts, Dd.
  etransitivity;
    [exact (PathFacts.resolve_renamed "cdnassets" "projects" y m _ _
              eq_refl eq_refl Py Pm Ns Ts Hdd)|].
  now rewrite Dd.
Qed.

Lemma assetsStream_file (e : env) (v : vinyl) :
  In v (assetsStream gzip e) <->
  exists f, In f (cdnassets e) /\ visible f = true
            /\ ext_in assetsExts (ext f) = true
            /\ v = assetsStage gzip (config e) (read f).
Proof.
  unfold assetsStream, assetsSrc. rewrite in_map_iff. split.
  - intros (v0 & <- & Hv0). apply in_map_iff in Hv0 as (f & <- & Hf).
    apply List.filter_In in Hf as [Hf Hc]. apply andb_true_iff in Hc as [Hvis Hext].
    exists f. auto.
  - intros (f & Hf & Hvis & Hext & ->). exists (read f). split; [reflexivity|].
    apply in_map, List.filter_In. split; [assumption|]. now rewrite Hvis, Hext.
Qed.

Lemma assetsStage_path (config : config_t) (v : vinyl) :
  s3_path (assetsStage gzip config v) = s3_path (rename (assetsDirname config) v)
  /\ extname (assetsStage gzip config v) = extname v.
Proof. unfold assetsStage. now destruct (gzipFilter _). Qed.

(** X8: for a validated date and a slug of one plain segment (no slash,
    not empty, not [.] and not [..]), every key that publish-assets
    uploads to starts with [cdnassets/projects/], the place its closing
    message names. *)
Theorem X8_asset_keys_under_cdnassets (e : env) (v : vinyl) :
  checkProjectInitDate (config e) = Return tt ->
  plain (convertedProjectName (projectName (config e))) = true ->
  In v (assetsStream gzip e) ->
  String.prefix "cdnassets/projects/" (s3_path v) = true.
Proof.
  intros Hd Hp Hv. apply assetsStream_file in Hv as (f & _ & Hvis & _ & ->).
  destruct (assets_file_segments e f Hd Hp Hvis) as (y & m & _ & _ & Hsegs).
  rewrite (proj1 (assetsStage_path _ _)).
  change (s3_path (rename (assetsDirname (config e)) (read f)))
    with (Path.join (relative_segments (rename (assetsDirname (config e)) (read f)))).
  rewrite Hsegs. cbn [app]. rewrite !PathFacts.join_cons.
  match goal with
  | |- String.prefix _ (_ +:+ _ +:+ _ +:+ _ +:+ ?r) = true =>
      change (String.prefix "cdnassets/projects/" ("cdnassets/projects/" +:+ r) = true)
  end.
  apply prefix_append.
Qed.

(** With no segment that starts with a dot on the way, the gzip filter
    decides on the extension alone. *)
Lemma gzipFilter_renamed (e : env) (f : localFile) :
  checkProjectInitDate (config e) = Return tt ->
  plain (convertedProjectName (projectName (config e))) = true ->
  Path.dot_leading (convertedProjectName (projectName (config e))) = false ->
  visible f = true ->
  gzipFilter (rename (assetsDirname (config e)) (read f)) = ext_in gzipExts (ext f).
Proof.
  intros Hd Hp Hdot Hvis.
  destruct (assets_file_segments e f Hd Hp Hvis) as (y & m & Vy & Vm & Hsegs).
  destruct (valid_date_plain y m Vy Vm) as (_ & _ & Dy & Dm).
  destruct (visible_segments f Hvis) as [_ Hgood].
  unfold gzipFilter. rewrite Hsegs. cbn [app forallb String.eqb Ascii.eqb Bool.eqb andb].
  rewrite Dy, Dm, Hdot. cbn [negb andb Path.dot_leading Ascii.eqb Bool.eqb].
  replace (forallb _ _) with true; [reflexivity|].
  symmetry. apply forallb_forall. intros seg Hseg.
  rewrite List.Forall_forall in Hgood.
  destruct (Hgood seg Hseg) as (_ & -> & _). reflexivity.
Qed.

Lemma assetsUpload_other (w : world) (v : vinyl) (k : string) :
  s3_path v <> k ->
  objects (assetsUpload md5 w v) !! k = objects w !! k
  /\ cache (assetsUpload md5 w v) !! k = cache w !! k.
Proof.
  intros Hne.
  destruct (assetsUpload_cases md5 w v)
    as [[_ ->]|[(_ & -> & _ & ->)|(_ & _ & -> & _ & ->)]]; [auto| |];
    now rewrite ?lookup_insert_ne.
Qed.

Lemma assets_run_creates (fs : list vinyl) (v : vinyl) :
  List.NoDup (map s3_path fs) -> In v fs ->
  forall w, objects w !! s3_path v = None -> cache w !! s3_path v = None ->
  objects (fold_left (assetsUpload md5) fs w) !! s3_path v = Some (s3_params v).
Proof.
  induction fs as [|b fs IH]; intros Hnd Hv w Ho Hc; [destruct Hv|].
  inversion Hnd as [|? ? Hnotin Hnd']; subst. cbn [fold_left].
  destruct Hv as [-> | Hv].
  - apply assets_run_keeps. now apply assetsUpload_fresh.
  - assert (Hne : s3_path b <> s3_path v).
    { intros E. apply Hnotin. rewrite E. now apply in_map. }
    destruct (assetsUpload_other w b _ Hne) as [Ho' Hc'].
    apply IH; try assumption; congruence.
Qed.

(** X9: for a validated date and a slug of one plain segment that starts
    with no dot, no file with the extension [.js] or [.css] enters the
    stream of publish-assets, although the gzip filter lists them; a file
    of the stream is compressed and marked [Content-Encoding: gzip] exactly
    when its extension is [.txt], [.csv] or [.json]; and the task creates
    at a free key the object with that body and that mark (streamed
    files having distinct keys). *)
Theorem X9_gzip_only_txt_csv_json (e : env) (f : localFile) :
  checkProjectInitDate (config e) = Return tt ->
  plain (convertedProjectName (projectName (config e))) = true ->
  Path.dot_leading (convertedProjectName (projectName (config e))) = false ->
  In f (cdnassets e) -> visible f = true -> ext_in assetsExts (ext f) = true ->
  let v := assetsStage gzip (config e) (read f) in
  In v (assetsStream gzip e)
  /\ ext f <> ".js" /\ ext f <> ".css"
  /\ (In (ext f) [".txt"; ".csv"; ".json"] ->
      contents v = gzip (bytes f) /\ contentEncoding v = Some "gzip")
  /\ (~ In (ext f) [".txt"; ".csv"; ".json"] ->
      contents v = bytes f /\ contentEncoding v = None)
  /\ (forall w,
        List.NoDup (map s3_path (assetsStream gzip e)) ->
        objects w !! s3_path v = None -> cache w !! s3_path v = None ->
        objects (snd (publish_assets gzip md5 e w)) !! s3_path v
        = Some {| body := contents v; encoding := contentEncoding v |}).
Proof.
  intros Hd Hp Hdot Hf Hvis Hext v.
  assert (Hin : In v (assetsStream gzip e)).
  { apply assetsStream_file. exists f. auto. }
  assert (Hstage : v = if ext_in gzipExts (ext f)
                       then awspublish_gzip gzip (rename (assetsDirname (config e)) (read f))
                       else rename (assetsDirname (config e)) (read f)).
  { subst v. unfold assetsStage. now rewrite (gzipFilter_renamed e f Hd Hp Hdot Hvis). }
  split; [exact Hin|].
  apply existsb_eqb_In in Hext. simpl in Hext.
  split; [|split; [|split; [|split]]].
  - intros E. rewrite E in Hext. intuition discriminate.
  - intros E. rewrite E in Hext. intuition discriminate.
  - intros Htxt. rewrite Hstage.
    assert (Hg : ext_in gzipExts (ext f) = true).
    { simpl in Htxt. destruct Htxt as [<- | [<- | [<- | []]]]; reflexivity. }
    rewrite Hg. split; reflexivity.
  - intros Hnot. rewrite Hstage.
    assert (Hg : ext_in gzipExts (ext f) = false).
    { destruct (ext_in gzipExts (ext f)) eqn:Hg'; [|reflexivity].
      exfalso. apply existsb_eqb_In in Hg'. simpl in Hg'.
      destruct Hg' as [E | [E | [E | [E | [E | []]]]]];
        try (apply Hnot; rewrite <- E; simpl; now auto);
        rewrite <- E in Hext; intuition discriminate. }
    rewrite Hg. split; reflexivity.
  - intros w Hnd Ho Hc. unfold publish_assets. cbn [snd].
    now apply assets_run_creates.
Qed.

End MoreTaskFacts.

(** X6, witness: the style sheet of the sample project. *)
Lemma X6_story_keys_under_sync_prefix_witness :
  String.prefix "machinist/dist/2017/01/my-cool-story" (s3_path sampleCss) = true.
Proof.
  apply (X6_story_keys_under_sync_prefix sampleEnv sampleCss);
    [reflexivity | reflexivity | reflexivity | discriminate | left; reflexivity].
Defined.


(** X8, witness: the JSON asset of the sample project. *)
Lemma X8_asset_keys_under_cdnassets_witness :
  String.prefix "cdnassets/projects/"
    (s3_path (assetsStage sampleGzip quotedDate (read sampleJson))) = true.
Proof.
  apply (X8_asset_keys_under_cdnassets sampleGzip sampleEnv);
    [reflexivity | reflexivity | left; reflexivity].
Defined.

(** X9, witness: the JSON asset of the sample project on an empty
    bucket. *)
Lemma X9_gzip_only_txt_csv_json_witness :
  objects (snd (publish_assets sampleGzip sampleMd5 sampleEnv emptyWorld))
    !! s3_path (assetsStage sampleGzip quotedDate (read sampleJson))
  = Some {| body := contents (assetsStage sampleGzip quotedDate (read sampleJson));
            encoding := contentEncoding
                          (assetsStage sampleGzip quotedDate (read sampleJson)) |}.
Proof.
  refine (proj2 (proj2 (proj2 (proj2 (proj2
            (X9_gzip_only_txt_csv_json sampleGzip sampleMd5 sampleEnv sampleJson
               _ _ _ _ _ _))))) emptyWorld _ _ _).
  - reflexivity.
  - reflexivity.
  - reflexivity.
  - left. reflexivity.
  - reflexivity.
  - reflexivity.
  - repeat constructor; simpl; intuition discriminate.
  - reflexivity.
  - reflexivity.
Defined.

(** ** The asset path written into the pages *)

(** X10: the path that rewriteAssetPath writes into the pages is the
    domain followed by the publish path without its last slash, and, for a
    validated date and a slug of one plain segment (no slash, not empty,
    not [.] and not [..]), every object the story publish uploads has a URL
    under it. *)
Theorem X10_rewritten_path_is_publish_path :
  (forall domain config,
     rewriteAssetPath_path domain config +:+ "/"
     = Js.ToString domain +:+ objectsLocation config)
  /\ (forall domain e v,
        checkProjectInitDate (config e) = Return tt ->
        no_slash (convertedProjectName (projectName (config e))) = true ->
        Path.trivial (convertedProjectName (projectName (config e))) = false ->
        convertedProjectName (projectName (config e)) <> ".." ->
        In v (storyStream e) ->
        String.prefix (rewriteAssetPath_path domain (config e))
                      (Js.ToString domain +:+ "/" +:+ s3_path v) = true).
Proof.
  split.
  - intros domain config. unfold rewriteAssetPath_path, objectsLocation.
    now rewrite !append_assoc.
  - intros domain e v Hd Hs Ts Hdd Hv.
    destruct (story_stream_key e v Hd Hs Ts Hdd Hv) as (tail & -> & _).
    replace (Js.ToString domain +:+ "/" +:+ storySyncPrefix (config e) +:+ tail)
      with (rewriteAssetPath_path domain (config e) +:+ tail).
    + apply prefix_append.
    + unfold rewriteAssetPath_path, storySyncPrefix. now rewrite !append_assoc.
Qed.

(** X10, witness: the style sheet of the sample project under a domain. *)
Lemma X10_rewritten_path_is_publish_path_witness :
  String.prefix "//cdn.example/machinist/dist/2017/01/my-cool-story"
    ("//cdn.example" +:+ "/" +:+ s3_path sampleCss) = true.
Proof.
  apply (proj2 X10_rewritten_path_is_publish_path (Js.Str "//cdn.example")
           sampleEnv sampleCss);
    [reflexivity | reflexivity | reflexivity | discriminate | left; reflexivity].
Defined.

(** ** The combiner and the order of its sources *)

(** X11: the combined text does not depend on which of the two documents
    reaches the combiner first: the key [embed] comes first in either
    case. *)
Theorem X11_combine_order_independent (config : config_t) (e m : Json.data) :
  jsoncombine combineConverter
    [(dest config +:+ "/styles/main.json", m);
     (dest config +:+ "/embed.json", e)]
  = combineJson config e m.
Proof.
  unfold combineJson, jsoncombine. cbn [fold_left fst snd].
  now rewrite json_name_embed, json_name_main.
Qed.

(** ** Requests of publish-assets *)

Section AssetRequests.

Variable gzip : string -> string.
Variable md5 : string -> string.

Lemma assetsUpload_no_delete (w : world) (v : vinyl) :
  List.filter is_delete (calls (assetsUpload md5 w v))
  = List.filter is_delete (calls w).
Proof.
  destruct (assetsUpload_cases md5 w v)
    as [[_ ->]|[(_ & _ & -> & _)|(_ & _ & _ & -> & _)]];
    [reflexivity| |]; now rewrite List.filter_app, app_nil_r.
Qed.

Lemma assetsUpload_settled_no_write (w : world) (v : vinyl) :
  settled md5 w v ->
  List.filter is_write (calls (assetsUpload md5 w v))
  = List.filter is_write (calls w).
Proof.
  intros Hv.
  destruct (assetsUpload_cases md5 w v)
    as [[_ ->]|[(_ & _ & -> & _)|(Hnone & Hc & _)]].
  - reflexivity.
  - now rewrite List.filter_app, app_nil_r.
  - destruct Hv as [[o Ho]|Hv]; congruence.
Qed.

(** X12: publish-assets never asks for a deletion, and a second run on the
    same local files sends no request that writes: after the first run
    the bucket is only read. *)
Theorem X12_assets_rerun_reads_only (e : env) (w : world) :
  List.filter is_delete (calls (snd (publish_assets gzip md5 e w)))
  = List.filter is_delete (calls w)
  /\ List.filter is_write
       (calls (snd (publish_assets gzip md5 e (snd (publish_assets gzip md5 e w)))))
     = List.filter is_write (calls (snd (publish_assets gzip md5 e w))).
Proof.
  unfold publish_assets; cbn [snd]. split.
  - apply (fold_left_invariant
             (fun w' => List.filter is_delete (calls w')
                        = List.filter is_delete (calls w))); [|reflexivity].
    intros a b _ Ha. now rewrite assetsUpload_no_delete.
  - set (fs := assetsStream gzip e).
    set (w1 := fold_left (assetsUpload md5) fs w).
    enough (H : Forall (settled md5 (fold_left (assetsUpload md5) fs w1)) fs
                /\ List.filter is_write (calls (fold_left (assetsUpload md5) fs w1))
                   = List.filter is_write (calls w1)) by apply H.
    apply (fold_left_invariant
             (fun w' => Forall (settled md5 w') fs
                        /\ List.filter is_write (calls w')
                           = List.filter is_write (calls w1))).
    + intros a b Hb [Ha Hc]. split.
      * eapply Forall_impl; [exact Ha|]. intros f.
        apply assetsUpload_settled_stays.
      * rewrite <- Hc. apply assetsUpload_settled_no_write.
        rewrite Forall_forall in Ha. apply Ha. now apply list_elem_of_In.
    + split; [apply assets_run_settles | reflexivity].
Qed.

End AssetRequests.

(** ** What a story publish changes *)

Section StoryEffects.

Variable md5 : string -> string.

Lemma storyUpload_cache (w : world) (v : vinyl) :
  cache (storyUpload md5 w v) = cache w.
Proof.
  unfold storyUpload, publish, storyOptions, SIM. cbn [simulate createOnly orb].
  case_bool_decide; [reflexivity|].
  destruct (objects w !! s3_path v) as [o|]; simpl; [|reflexivity].
  now case_bool_decide.
Qed.

Lemma storyUpload_other (w : world) (v : vinyl) (k : string) :
  s3_path v <> k -> objects (storyUpload md5 w v) !! k = objects w !! k.
Proof.
  intros Hne.
  destruct (storyUpload_cases md5 w v) as [[-> _] | (-> & _)]; [reflexivity|].
  now rewrite lookup_insert_ne.
Qed.


Lemma story_run_cache (fs : list vinyl) (w : world) :
  cache (fold_left (storyUpload md5) fs w) = cache w.
Proof.
  apply (fold_left_invariant (fun w' => cache w' = cache w)); [|reflexivity].
  intros a b _ Ha. now rewrite storyUpload_cache.
Qed.

Lemma story_run_other (fs : list vinyl) (k : string) (w : world) :
  (forall b, In b fs -> s3_path b <> k) ->
  objects (fold_left (storyUpload md5) fs w) !! k = objects w !! k.
Proof.
  intros Hne.
  apply (fold_left_invariant (fun w' => objects w' !! k = objects w !! k));
    [|reflexivity].
  intros a b Hb Ha. rewrite <- Ha. apply storyUpload_other. now apply Hne.
Qed.



(** X14: for a slug of one plain segment (no slash, not empty, not [.] and
    not [..]), a story publish leaves alone every object whose key does not
    start with the sync prefix. *)
Theorem X14_story_publish_stays_under_prefix (e : env) (w : world) (k : string) :
  no_slash (convertedProjectName (projectName (config e))) = true ->
  Path.trivial (convertedProjectName (projectName (config e))) = false ->
  convertedProjectName (projectName (config e)) <> ".." ->
  String.prefix (storySyncPrefix (config e)) k = false ->
  objects (snd (publish_story md5 e w)) !! k = objects w !! k.
Proof.
  intros Hs Ts Hdd Hk. unfold publish_story.
  destruct (preflight e) as [[]|err] eqn:Hp; [|reflexivity].
  unfold prompt_confirm. destruct (answer e); [|reflexivity]. cbn [snd].
  rewrite sync_lookup. unfold stale. rewrite Hk. cbn [andb].
  apply story_run_other. intros b Hb E.
  destruct (story_stream_key e b (preflight_passed e Hp) Hs Ts Hdd Hb)
    as (tail & Hkey & _).
  rewrite <- E, Hkey, prefix_append in Hk. discriminate.
Qed.

End StoryEffects.


(** X14, witness: an object under [cdnassets/] is left alone. *)
Lemma X14_story_publish_stays_under_prefix_witness :
  objects (snd (publish_story sampleMd5 sampleEnv sampleAssetsWorld))
    !! "cdnassets/projects/2017/01/my-cool-story/data.json"
  = objects sampleAssetsWorld !! "cdnassets/projects/2017/01/my-cool-story/data.json".
Proof.
  apply (X14_story_publish_stays_under_prefix sampleMd5 sampleEnv sampleAssetsWorld);
    [reflexivity | reflexivity | discriminate | reflexivity].
Defined.
